(** * QTablePanel: the live Q-table client

    A shallow embedding of [src/QTablePanel.tsx]: the component state, the
    cache-defeating fetcher, the async operations [refresh], [demoStep] and
    the session reset, the keyboard handler [onKey] and the gating of the
    buttons, followed by the properties of the client protocol.

    An async function is a finite tree of synchronous effects and
    suspension points ([Async]); it is run either to completion against an
    environment that answers every request ([run]), or step by step inside
    an event loop in which several operations may be in flight
    ([handle]). *)

From Stdlib Require Import Bool List String Ascii NArith Arith Lia.
From Stdlib Require Import DecimalString.
From Stdlib Require DecimalPos DecimalN.
From Stdlib Require Import Floats.PrimFloat.
Import ListNotations.

Set Implicit Arguments.
Set Warnings "-inexact-float,-register-all".
Local Open Scope string_scope.

(* ================================================================= *)
(** ** JavaScript values *)

(** What [Response.json()] can produce, plus [undefined] (the value of
    a missing property).  Numbers are IEEE binary64, as in JavaScript. *)
Inductive JsValue : Type :=
| JUndefined
| JNull
| JBool (b : bool)
| JNum (x : float)
| JStr (s : string)
| JArr (items : list JsValue)
| JObj (props : list (string * JsValue)).

(** An [Error] object: what [throw], a rejected [fetch] and a rejected
    [json()] carry. *)
Record JsError : Type := mkError { name : string; message : string }.

(** [new Error(msg)] *)
Definition Error (msg : string) : JsError := mkError "Error" msg.

(** The [TypeError] of a property read on [null] or [undefined] (the text
    is the engine's; V8's is used). *)
Definition nullRead (base key : string) : JsError :=
  mkError "TypeError"
    ("Cannot read properties of " ++ base ++ " (reading '" ++ key ++ "')").

(** [Error.prototype.toString] *)
Definition toString (e : JsError) : string :=
  if (name e =? "") then message e
  else if (message e =? "") then name e
  else name e ++ ": " ++ message e.

(** [String(e?.message || e)]: the empty string is falsy, so an error
    without a message falls back to the error's own string form. *)
Definition errorText (e : JsError) : string :=
  if (message e =? "") then toString e else message e.

Fixpoint lookup (key : string) (props : list (string * JsValue)) : JsValue :=
  match props with
  | [] => JUndefined
  | (k, v) :: rest => if (key =? k) then v else lookup key rest
  end.

(** [v.key] for a key that is no built-in property of strings, arrays or
    numbers (the panel reads only [rows] and [action]). *)
Definition getProp (v : JsValue) (key : string) : JsError + JsValue :=
  match v with
  | JNull => inl (nullRead "null" key)
  | JUndefined => inl (nullRead "undefined" key)
  | JObj props => inr (lookup key props)
  | _ => inr JUndefined
  end.

(** [Array.isArray(v) ? v : []] *)
Definition arrayOrEmpty (v : JsValue) : list JsValue :=
  match v with
  | JArr items => items
  | _ => []
  end.

Definition isArray (v : JsValue) : bool :=
  match v with
  | JArr _ => true
  | _ => false
  end.

(** [{ ...obj, key: v }]: an existing key keeps its place. *)
Fixpoint setProp (key : string) (v : JsValue) (props : list (string * JsValue))
  : list (string * JsValue) :=
  match props with
  | [] => [(key, v)]
  | (k, w) :: rest =>
      if (key =? k) then (k, v) :: rest else (k, w) :: setProp key v rest
  end.

Definition keys (props : list (string * JsValue)) : list string :=
  map fst props.

(** [v.key] and [Object.keys(v)] of an object literal. *)
Definition field (key : string) (v : JsValue) : JsValue :=
  match v with
  | JObj props => lookup key props
  | _ => JUndefined
  end.

Definition fieldNames (v : JsValue) : list string :=
  match v with
  | JObj props => keys props
  | _ => []
  end.

(** Decimal rendering of a non-negative integer inside a template
    literal. *)
Definition showN (n : N) : string := NilZero.string_of_uint (N.to_uint n).

(** [JSON.stringify(v)], as the document its text denotes (what
    [JSON.parse] makes of it).  A property whose value is [undefined] is
    left out, an [undefined] array element becomes [null], a number that
    is not finite becomes [null] and the negative zero is written 0;
    [JSON.stringify(undefined)] itself is [undefined].  (Keys that are
    array indices, which a JavaScript object moves to the front, do not
    occur in the objects of the panel.) *)
Fixpoint JSON_stringify (v : JsValue) : JsValue :=
  match v with
  | JUndefined => JUndefined
  | JNull => JNull
  | JBool b => JBool b
  | JNum x =>
      if is_nan x || is_infinity x then JNull
      else if is_zero x then JNum 0
      else JNum x
  | JStr s => JStr s
  | JArr items =>
      JArr (map (fun x => match x with
                          | JUndefined => JNull
                          | _ => JSON_stringify x
                          end) items)
  | JObj props =>
      JObj ((fix entries (ps : list (string * JsValue)) : list (string * JsValue) :=
               match ps with
               | [] => []
               | (k, x) :: rest =>
                   match x with
                   | JUndefined => entries rest
                   | _ => (k, JSON_stringify x) :: entries rest
                   end
               end) props)
  end.

(** *** encodeURIComponent

    A JavaScript string is kept as its bytes in WTF-8: UTF-8, plus the
    three bytes ED, A0..BF, 80..BF for a surrogate that has no partner.
    [encodeURIComponent] throws on such a lone surrogate and otherwise
    escapes every byte that is not an unreserved character. *)
Definition URIError : JsError := mkError "URIError" "URI malformed".

Fixpoint loneSurrogate (s : string) : bool :=
  match s with
  | EmptyString => false
  | String c rest =>
      (Nat.eqb (nat_of_ascii c) 237
       && match rest with
          | String d _ =>
              (160 <=? nat_of_ascii d)%nat && (nat_of_ascii d <=? 191)%nat
          | EmptyString => false
          end)
      || loneSurrogate rest
  end.

(** A-Z a-z 0-9 - _ . ! ~ * ' ( ) *)
Definition unreserved (c : ascii) : bool :=
  let n := nat_of_ascii c in
  ((65 <=? n)%nat && (n <=? 90)%nat) || ((97 <=? n)%nat && (n <=? 122)%nat)
  || ((48 <=? n)%nat && (n <=? 57)%nat)
  || existsb (Ascii.eqb c) (list_ascii_of_string "-_.!~*'()").

Definition hexDigit (n : nat) : ascii :=
  nth n (list_ascii_of_string "0123456789ABCDEF") "0"%char.

Definition percent (c : ascii) : string :=
  let n := nat_of_ascii c in
  String "%" (String (hexDigit (n / 16)) (String (hexDigit (n mod 16)) EmptyString)).

(** The text [encodeURIComponent] returns when it returns. *)
Fixpoint escaped (s : string) : string :=
  match s with
  | EmptyString => EmptyString
  | String c rest =>
      (if unreserved c then String c EmptyString else percent c) ++ escaped rest
  end.

Definition encodeURIComponent (s : string) : JsError + string :=
  if loneSurrogate s then inl URIError else inr (escaped s).

(** An identity [encodeURIComponent] accepts. *)
Definition encodable (userId : string) : Prop := loneSurrogate userId = false.

(* ================================================================= *)
(** ** Requests and responses *)

Inductive Method : Type := GET | POST.

(** A request as handed to [fetch].  The URL is kept in parts
    ([base ++ path ++ "?" ++ query]), the values of the query as they
    stand in the URL; [body] is the JSON document sent. *)
Record Request : Type := mkRequest {
  method : Method;
  base : string;
  path : string;
  query : list (string * string);
  headers : list (string * string);
  body : option JsValue
}.

(** A settled [fetch]: the status and what [r.json()] settles to. *)
Record Response : Type := mkResponse {
  status : N;
  json : JsError + JsValue
}.

(** [r.ok] *)
Definition ok (r : Response) : bool :=
  (200 <=? status r)%N && (status r <=? 299)%N.

(** [fetch] rejects (no response) or resolves with a response of any
    status. *)
Definition Answer : Type := (JsError + Response)%type.

(** [Headers.set] *)
Fixpoint setHeader (k v : string) (hs : list (string * string))
  : list (string * string) :=
  match hs with
  | [] => [(k, v)]
  | (k', v') :: rest =>
      if (k =? k') then (k, v) :: rest else (k', v') :: setHeader k v rest
  end.

(* ================================================================= *)
(** ** Component state *)

Record State : Type := mkState {
  rows : list JsValue;
  busyDemo : bool;
  refreshing : bool;
  error : string;
  lastUpdated : option N
}.

(** The [useState] initial values. *)
Definition initialState : State :=
  {| rows := []; busyDemo := false; refreshing := false; error := "";
     lastUpdated := None |}.

(** The synchronous effects of the panel's functions. *)
Inductive Sync : Type :=
| SetRows (rs : list JsValue)
| SetBusyDemo (b : bool)
| SetRefreshing (b : bool)
| SetError (msg : string)
| SetLastUpdated (t : N)
| ConsoleError (e : JsError)
| ConsoleWarn (msg : string).

Definition applySync (s : Sync) (st : State) : State :=
  match s with
  | SetRows rs =>
      {| rows := rs; busyDemo := busyDemo st; refreshing := refreshing st;
         error := error st; lastUpdated := lastUpdated st |}
  | SetBusyDemo b =>
      {| rows := rows st; busyDemo := b; refreshing := refreshing st;
         error := error st; lastUpdated := lastUpdated st |}
  | SetRefreshing b =>
      {| rows := rows st; busyDemo := busyDemo st; refreshing := b;
         error := error st; lastUpdated := lastUpdated st |}
  | SetError msg =>
      {| rows := rows st; busyDemo := busyDemo st; refreshing := refreshing st;
         error := msg; lastUpdated := lastUpdated st |}
  | SetLastUpdated t =>
      {| rows := rows st; busyDemo := busyDemo st; refreshing := refreshing st;
         error := error st; lastUpdated := Some t |}
  | ConsoleError _ | ConsoleWarn _ => st
  end.

(* ================================================================= *)
(** ** Async functions *)

(** The body of an async function: it returns, throws, performs a
    synchronous effect, reads the clock, or suspends on [await fetch(..)]
    or [await r.json()]. *)
Inductive Async (A : Type) : Type :=
| Ret (a : A)
| Throw (e : JsError)
| Do (s : Sync) (k : Async A)
| DateNow (k : N -> Async A)
| AwaitFetch (rq : Request) (k : Answer -> Async A)
| AwaitJson (r : Response) (k : JsError + JsValue -> Async A).

Arguments Throw {A} e.

Fixpoint bind {A B : Type} (p : Async A) (f : A -> Async B) : Async B :=
  match p with
  | Ret a => f a
  | Throw e => Throw e
  | Do s k => Do s (bind k f)
  | DateNow k => DateNow (fun t => bind (k t) f)
  | AwaitFetch rq k => AwaitFetch rq (fun a => bind (k a) f)
  | AwaitJson r k => AwaitJson r (fun a => bind (k a) f)
  end.

(** [try { p } catch (e) { h e }] *)
Fixpoint tryCatch {A : Type} (p : Async A) (h : JsError -> Async A) : Async A :=
  match p with
  | Ret a => Ret a
  | Throw e => h e
  | Do s k => Do s (tryCatch k h)
  | DateNow k => DateNow (fun t => tryCatch (k t) h)
  | AwaitFetch rq k => AwaitFetch rq (fun a => tryCatch (k a) h)
  | AwaitJson r k => AwaitJson r (fun a => tryCatch (k a) h)
  end.

(** [try { p } finally { f }]: [f] runs on both exits and the outcome of
    [p] is kept (unless [f] itself throws). *)
Fixpoint tryFinally {A : Type} (p : Async A) (f : Async unit) : Async A :=
  match p with
  | Ret a => bind f (fun _ => Ret a)
  | Throw e => bind f (fun _ => Throw e)
  | Do s k => Do s (tryFinally k f)
  | DateNow k => DateNow (fun t => tryFinally (k t) f)
  | AwaitFetch rq k => AwaitFetch rq (fun a => tryFinally (k a) f)
  | AwaitJson r k => AwaitJson r (fun a => tryFinally (k a) f)
  end.

Declare Scope async_scope.
Delimit Scope async_scope with async.
Bind Scope async_scope with Async.

Notation "x <- p ;; q" := (bind p (fun x => q))
  (at level 61, p at next level, right associativity) : async_scope.
Notation "p ;; q" := (bind p (fun _ => q))
  (at level 61, right associativity) : async_scope.

Definition perform (s : Sync) : Async unit := Do s (Ret tt).
Definition now : Async N := DateNow (fun t => Ret t).

(** A settled promise handed back to the awaiting function. *)
Definition settle {A : Type} (a : JsError + A) : Async A :=
  match a with
  | inl e => Throw e
  | inr v => Ret v
  end.

Definition awaitFetch (rq : Request) : Async Response := AwaitFetch rq settle.
Definition awaitJson (r : Response) : Async JsValue := AwaitJson r settle.

Definition setRows rs := perform (SetRows rs).
Definition setBusyDemo b := perform (SetBusyDemo b).
Definition setRefreshing b := perform (SetRefreshing b).
Definition setError msg := perform (SetError msg).
Definition setLastUpdated t := perform (SetLastUpdated t).
Definition consoleError e := perform (ConsoleError e).
Definition consoleWarn msg := perform (ConsoleWarn msg).

(* ================================================================= *)
(** ** The panel's functions *)

(** [apiBase || import.meta.env?.VITE_Q_API || "http://127.0.0.1:8000"]:
    an absent or empty value is falsy. *)
Definition truthy (s : option string) : option string :=
  match s with
  | Some v => if (v =? "") then None else Some v
  | None => None
  end.

Definition resolveAPI (apiBase envDefault : option string) : string :=
  match truthy apiBase with
  | Some v => v
  | None =>
      match truthy envDefault with
      | Some v => v
      | None => "http://127.0.0.1:8000"
      end
  end.

(** The three headers [fetchJSON] sets on top of the caller's. *)
Definition withNoCache (rq : Request) : Request :=
  {| method := method rq; base := base rq; path := path rq; query := query rq;
     headers :=
       setHeader "Expires" "0"
         (setHeader "Pragma" "no-cache"
            (setHeader "Cache-Control" "no-store" (headers rq)));
     body := body rq |}.

(** [fetchJSON(url, init)] *)
Definition fetchJSON (rq : Request) : Async Response :=
  awaitFetch (withNoCache rq).

Definition jsonHeaders : list (string * string) :=
  [("Content-Type", "application/json")].

(** [{ difficulty: 2, enemies: 1, timeMult: 1, recentSR: success ? 0.7 : 0.3 }] *)
Definition demoState (success : bool) : list (string * JsValue) :=
  [("difficulty", JNum 2); ("enemies", JNum 1); ("timeMult", JNum 1);
   ("recentSR", JNum (if success then 0.7 else 0.3))].

(** [success ? 1.0 : -1.0] *)
Definition reward (success : bool) : float :=
  if success then 1.0%float else (-1.0)%float.

(** [{ ...state, recentSR: success ? 0.75 : 0.25 }] *)
Definition next_state (success : bool) : list (string * JsValue) :=
  setProp "recentSR" (JNum (if success then 0.75 else 0.25)) (demoState success).

(** [{ state, action, reward, next_state, done: false }], the object
    handed to [JSON.stringify] for the update request; the body sent is
    [JSON_stringify] of it. *)
Definition updateBody (success : bool) (action : JsValue) : JsValue :=
  JObj [("state", JObj (demoState success)); ("action", action);
        ("reward", JNum (reward success));
        ("next_state", JObj (next_state success)); ("done", JBool false)].

Section Panel.

(** The values closed over by one render: the resolved API base and the
    [userId] prop. *)
Variable API : string.
Variable userId : string.

(** The arguments of the four [fetchJSON] calls, for an identity that
    [encodeURIComponent] accepts; [forIdentity] below covers the
    identity on which it throws, before any request. *)
Definition tableCall (bust : N) : Request :=
  {| method := GET; base := API; path := "/q/table";
     query := [("user", escaped userId); ("_", showN bust)];
     headers := []; body := None |}.

Definition chooseCall (success : bool) : Request :=
  {| method := POST; base := API; path := "/q/choose";
     query := [("user", escaped userId)]; headers := jsonHeaders;
     body := Some (JSON_stringify (JObj [("state", JObj (demoState success))])) |}.

Definition updateCall (success : bool) (action : JsValue) : Request :=
  {| method := POST; base := API; path := "/q/update";
     query := [("user", escaped userId)]; headers := jsonHeaders;
     body := Some (JSON_stringify (updateBody success action)) |}.

Definition resetCall : Request :=
  {| method := POST; base := API; path := "/reset";
     query := [("user", escaped userId)]; headers := []; body := None |}.

(** The [try] block of [refresh]. *)
Definition refreshTry : Async unit :=
  (bust <- now ;;
   r <- fetchJSON (tableCall bust) ;;
   if ok r then
     j <- awaitJson r ;;
     jrows <- settle (getProp j "rows") ;;
     setRows (arrayOrEmpty jrows) ;;
     t <- now ;;
     setLastUpdated t
   else Throw (Error ("GET /q/table HTTP " ++ showN (status r))))%async.

(** The [catch] block shared by [refresh] and [demoStep]. *)
Definition surface (e : JsError) : Async unit :=
  (consoleError e ;; setError (errorText e))%async.

Definition refresh : Async unit :=
  (setError "" ;;
   setRefreshing true ;;
   tryFinally (tryCatch refreshTry surface) (setRefreshing false))%async.

(** The [try] block of [demoStep]. *)
Definition demoTry (success : bool) : Async unit :=
  (chooseRes <- fetchJSON (chooseCall success) ;;
   if ok chooseRes then
     choose <- awaitJson chooseRes ;;
     action <- settle (getProp choose "action") ;;
     updRes <- fetchJSON (updateCall success action) ;;
     if ok updRes then refresh
     else Throw (Error ("POST /q/update HTTP " ++ showN (status updRes)))
   else Throw (Error ("POST /q/choose HTTP " ++ showN (status chooseRes))))%async.

Definition demoStep (success : bool) : Async unit :=
  (setBusyDemo true ;;
   setError "" ;;
   tryFinally (tryCatch (demoTry success) surface) (setBusyDemo false))%async.

(** The [try] block of the reset effect: the response is not inspected. *)
Definition resetTry : Async unit :=
  (_ <- fetchJSON resetCall ;;
   setRows [] ;;
   t <- now ;;
   setLastUpdated t)%async.

(** The async body of the reset effect, run when [API] or [userId]
    changes. *)
Definition resetEffect : Async unit :=
  tryCatch resetTry (fun _ => consoleWarn "Reset failed (backend offline?)").

(** [n] refreshes one after the other, each awaited before the next. *)
Fixpoint refreshes (n : nat) : Async unit :=
  match n with
  | O => Ret tt
  | S m => (refresh ;; refreshes m)%async
  end.

End Panel.

(** [p] when the URL of its first request cannot be built: the template
    is evaluated inside the [try], before [fetch] is called, so [p] goes
    on as if that [fetch] had rejected with [e], and no request is
    issued. *)
Fixpoint withoutRequest {A : Type} (e : JsError) (p : Async A) : Async A :=
  match p with
  | Ret a => Ret a
  | Throw e' => Throw e'
  | Do s k => Do s (withoutRequest e k)
  | DateNow k => DateNow (fun t => withoutRequest e (k t))
  | AwaitFetch _ k => k (inl e)
  | AwaitJson r k => AwaitJson r (fun a => withoutRequest e (k a))
  end.

(** An operation of the panel as the source runs it for any identity:
    the operation itself when [encodeURIComponent(userId)] returns (its
    later URLs use the same identity), and the operation without its
    request when it throws. *)
Definition forIdentity {A : Type} (userId : string) (p : Async A) : Async A :=
  match encodeURIComponent userId with
  | inr _ => p
  | inl e => withoutRequest e p
  end.

(* ================================================================= *)
(** ** The keyboard shortcut *)

Record KeyboardEvent : Type := mkKey {
  key : string;
  ctrlKey : bool;
  metaKey : bool;
  altKey : bool;
  shiftKey : bool
}.

Definition lowerAscii (c : ascii) : ascii :=
  let n := nat_of_ascii c in
  if (65 <=? n)%nat && (n <=? 90)%nat then ascii_of_nat (n + 32) else c.

(** [s.toLowerCase()] on the ASCII letters; other bytes are kept, which
    cannot affect a comparison with ["r"]. *)
Fixpoint toLowerCase (s : string) : string :=
  match s with
  | EmptyString => EmptyString
  | String c rest => String (lowerAscii c) (toLowerCase rest)
  end.

(** The condition of [onKey]; [shiftKey] is not read. *)
Definition onKeyFires (e : KeyboardEvent) : bool :=
  (toLowerCase (key e) =? "r") && negb (ctrlKey e) && negb (metaKey e)
  && negb (altKey e).

(** [onKey]: what the handler starts, with the [refresh] of the render
    that registered it. *)
Definition onKey (API userId : string) (e : KeyboardEvent) : option (Async unit) :=
  if onKeyFires e then Some (refresh API userId) else None.

(* ================================================================= *)
(** ** Running one operation to completion *)

(** The environment answers the n-th request issued and the n-th reading
    of the clock; every request settles. *)
Record Env : Type := mkEnv {
  respond : nat -> Answer;
  clock : nat -> N
}.

(** The component state together with what the run has done so far:
    the requests issued and the synchronous effects performed (newest
    first), and the number of clock readings. *)
Record World : Type := mkWorld {
  ui : State;
  sent : list Request;
  effects : list Sync;
  ticks : nat
}.

Definition record (s : Sync) (w : World) : World :=
  {| ui := applySync s (ui w); sent := sent w; effects := s :: effects w;
     ticks := ticks w |}.

Definition tick (w : World) : World :=
  {| ui := ui w; sent := sent w; effects := effects w; ticks := S (ticks w) |}.

Definition send (rq : Request) (w : World) : World :=
  {| ui := ui w; sent := rq :: sent w; effects := effects w; ticks := ticks w |}.

Fixpoint run {A : Type} (E : Env) (p : Async A) (w : World)
  : (JsError + A) * World :=
  match p with
  | Ret a => (inr a, w)
  | Throw e => (inl e, w)
  | Do s k => run E k (record s w)
  | DateNow k => run E (k (clock E (ticks w))) (tick w)
  | AwaitFetch rq k => run E (k (respond E (List.length (sent w)))) (send rq w)
  | AwaitJson r k => run E (k (json r)) w
  end.

Definition freshWorld : World :=
  {| ui := initialState; sent := []; effects := []; ticks := 0 |}.

(* ================================================================= *)
(** ** The event loop: several operations in flight *)

Record Props : Type := mkProps {
  apiOf : string;
  userOf : string;
  showDemoControls : bool
}.

(** One mounted panel between two events: the state as rendered, the
    operations suspended at an [await] (oldest first), every request
    issued so far (newest first), and the props closed over by the
    [keydown] listener, which is registered once, by the first render. *)
Record Config : Type := mkConfig {
  view : State;
  inflight : list (Async unit);
  issued : list Request;
  listener : option Props
}.

Definition unmounted : Config :=
  {| view := initialState; inflight := []; issued := []; listener := None |}.

Inductive Event : Type :=
| Mounted
| IdentityChanged
| ClickRefresh
| ClickDemo (success : bool)
| KeyDown (e : KeyboardEvent)
| Settled (i : nat) (a : Answer)
| BodyRead (i : nat).

(** Runs a function from where it stands to its next [await] or to its
    end; [t] is the time of the event being handled.  A function that
    ends, by return or by throw, leaves the loop. *)
Fixpoint advance (t : N) (p : Async unit) (c : Config) : Config :=
  match p with
  | Ret _ => c
  | Throw _ => c
  | Do s k =>
      advance t k
        {| view := applySync s (view c); inflight := inflight c;
           issued := issued c; listener := listener c |}
  | DateNow k => advance t (k t) c
  | AwaitFetch rq _ =>
      {| view := view c; inflight := inflight c ++ [p];
         issued := rq :: issued c; listener := listener c |}
  | AwaitJson _ _ =>
      {| view := view c; inflight := inflight c ++ [p];
         issued := issued c; listener := listener c |}
  end.

Fixpoint removeNth {A : Type} (i : nat) (l : list A) : list A :=
  match i, l with
  | _, [] => []
  | O, _ :: rest => rest
  | S j, x :: rest => x :: removeNth j rest
  end.

Definition resume (i : nat) (c : Config) : Config :=
  {| view := view c; inflight := removeNth i (inflight c);
     issued := issued c; listener := listener c |}.

(** [disabled={busyDemo || refreshing}], on all three buttons. *)
Definition buttonsDisabled (st : State) : bool := busyDemo st || refreshing st.

Definition handle (P : Props) (t : N) (ev : Event) (c : Config) : Config :=
  match ev with
  | Mounted =>
      let c1 := advance t (resetEffect (apiOf P) (userOf P)) c in
      let c2 := advance t (refresh (apiOf P) (userOf P)) c1 in
      {| view := view c2; inflight := inflight c2; issued := issued c2;
         listener := Some P |}
  | IdentityChanged =>
      let c1 := advance t (resetEffect (apiOf P) (userOf P)) c in
      advance t (refresh (apiOf P) (userOf P)) c1
  | ClickRefresh =>
      if buttonsDisabled (view c) then c
      else advance t (refresh (apiOf P) (userOf P)) c
  | ClickDemo success =>
      if showDemoControls P && negb (buttonsDisabled (view c))
      then advance t (demoStep (apiOf P) (userOf P) success) c
      else c
  | KeyDown e =>
      match listener c with
      | Some P0 =>
          match onKey (apiOf P0) (userOf P0) e with
          | Some p => advance t p c
          | None => c
          end
      | None => c
      end
  | Settled i a =>
      match nth_error (inflight c) i with
      | Some (AwaitFetch _ k) => advance t (k a) (resume i c)
      | _ => c
      end
  | BodyRead i =>
      match nth_error (inflight c) i with
      | Some (AwaitJson r k) => advance t (k (json r)) (resume i c)
      | _ => c
      end
  end.

(** A history: the events in order, each with its time. *)
Fixpoint play (P : Props) (evs : list (N * Event)) (c : Config) : Config :=
  match evs with
  | [] => c
  | (t, ev) :: rest => play P rest (handle P t ev c)
  end.

(** The network calls awaiting their response. *)
Definition awaitsFetch (p : Async unit) : bool :=
  match p with
  | AwaitFetch _ _ => true
  | _ => false
  end.

Definition callsInFlight (c : Config) : nat :=
  List.length (filter awaitsFetch (inflight c)).

(* ================================================================= *)
(** ** Reading an answer *)

(** What the [try] block of [refresh] comes to on the answer to its
    table request: the error it throws, or the rows it displays. *)
Definition tableOutcome (a : Answer) : JsError + list JsValue :=
  match a with
  | inl e => inl e
  | inr r =>
      if ok r then
        match json r with
        | inl e => inl e
        | inr j =>
            match getProp j "rows" with
            | inl e => inl e
            | inr v => inr (arrayOrEmpty v)
            end
        end
      else inl (Error ("GET /q/table HTTP " ++ showN (status r)))
  end.

Definition tableFails (a : Answer) : Prop :=
  exists e, tableOutcome a = inl e.

(** The world [refresh] leaves behind when its table request was
    answered by [a]: the functional reading of [refresh], proved equal to
    its run in [run_refresh]. *)
Definition afterRefresh (API userId : string) (E : Env) (a : Answer) (w : World)
  : World :=
  let w1 :=
    send (withNoCache (tableCall API userId (clock E (ticks w))))
      (tick (record (SetRefreshing true) (record (SetError "") w))) in
  match tableOutcome a with
  | inl e =>
      record (SetRefreshing false)
        (record (SetError (errorText e)) (record (ConsoleError e) w1))
  | inr rs =>
      record (SetRefreshing false)
        (record (SetLastUpdated (clock E (ticks w1)))
           (tick (record (SetRows rs) w1)))
  end.

(** [n] refreshes in a row, each answered in turn. *)
Fixpoint afterRefreshes (API userId : string) (E : Env) (n : nat) (w : World)
  : World :=
  match n with
  | O => w
  | S m =>
      afterRefreshes API userId E m
        (afterRefresh API userId E (respond E (List.length (sent w))) w)
  end.

(* ================================================================= *)
(** ** Sample data *)

(** The row of the end-to-end scenario. *)
Definition sampleRow : JsValue :=
  JObj [("state", JStr "s1"); ("action", JNum 3);
        ("actionParams",
          JObj [("difficulty", JNum 2); ("enemies", JNum 1); ("timeMult", JNum 1)]);
        ("Q", JNum 0.42)].

Definition otherRow : JsValue :=
  JObj [("state", JStr "s2"); ("action", JNum 1);
        ("actionParams",
          JObj [("difficulty", JNum 1); ("enemies", JNum 2); ("timeMult", JNum 1)]);
        ("Q", JNum (-0.5))].

Definition respondJson (st : N) (j : JsValue) : Answer :=
  inr {| status := st; json := inr j |}.

Definition tableWith (rs : list JsValue) : Answer :=
  respondJson 200 (JObj [("rows", JArr rs)]).

Definition chosen (action : JsValue) : Answer :=
  respondJson 200 (JObj [("action", action)]).

Definition accepted : Answer := respondJson 200 (JObj [("ok", JBool true)]).

(** A server error: status 500 with a body that is not JSON. *)
Definition http500 : Answer :=
  inr {| status := 500;
         json := inl (mkError "SyntaxError" "Unexpected token 'I', Internal S... is not valid JSON") |}.

(** No response at all. *)
Definition offline : Answer := inl (mkError "TypeError" "Failed to fetch").

(** An environment that gives the listed answers in order, then stays
    offline; the clock starts at [t0] and moves by one per reading. *)
Definition script (answers : list Answer) (t0 : N) : Env :=
  {| respond := fun n => nth n answers offline;
     clock := fun n => (t0 + N.of_nat n)%N |}.

Definition populated (rs : list JsValue) : World :=
  {| ui := {| rows := rs; busyDemo := false; refreshing := false; error := "";
              lastUpdated := Some 7%N |};
     sent := []; effects := []; ticks := 0 |}.

Definition alice : Props :=
  {| apiOf := "http://127.0.0.1:8000"; userOf := "alice"; showDemoControls := true |}.

Definition plainR : KeyboardEvent :=
  {| key := "r"; ctrlKey := false; metaKey := false; altKey := false;
     shiftKey := false |}.

Definition shiftR : KeyboardEvent :=
  {| key := "R"; ctrlKey := false; metaKey := false; altKey := false;
     shiftKey := true |}.

Definition ctrlR : KeyboardEvent :=
  {| key := "r"; ctrlKey := true; metaKey := false; altKey := false;
     shiftKey := false |}.

(** Mount, let the reset and the initial fetch finish, then click
    Refresh: one refresh is in flight and [refreshing] is set. *)
Definition refreshClicked : list (N * Event) :=
  [(10, Mounted); (11, Settled 0 accepted); (12, Settled 0 (tableWith []));
   (13, BodyRead 0); (20, ClickRefresh)]%N.


(* ================================================================= *)
(** ** Headers of a request *)

(** The method and the path of a request. *)
Definition requestLine (rq : Request) : Method * string := (method rq, path rq).

(** [headers.get(k)] *)
Fixpoint getHeader (k : string) (hs : list (string * string)) : option string :=
  match hs with
  | [] => None
  | (k', v) :: rest => if (k =? k') then Some v else getHeader k rest
  end.

(** What every call through [fetchJSON] must carry: the three
    cache-defeating headers, and the JSON content type whenever a body is
    sent. *)
Definition defeatsCaches (rq : Request) : Prop :=
  getHeader "Cache-Control" (headers rq) = Some "no-store" /\
  getHeader "Pragma" (headers rq) = Some "no-cache" /\
  getHeader "Expires" (headers rq) = Some "0" /\
  (body rq = None \/
   getHeader "Content-Type" (headers rq) = Some "application/json").

(** Every request an operation can come to issue, whatever it is
    answered, satisfies [Q]. *)
Fixpoint allRequests {A : Type} (Q : Request -> Prop) (p : Async A) : Prop :=
  match p with
  | Ret _ => True
  | Throw _ => True
  | Do _ k => allRequests Q k
  | DateNow k => forall t, allRequests Q (k t)
  | AwaitFetch rq k => Q rq /\ forall a, allRequests Q (k a)
  | AwaitJson _ k => forall a, allRequests Q (k a)
  end.

(* ================================================================= *)
(** ** What the component returns *)

(** One [<tr>] of the table body.  The cells hold the values handed to
    React; [qCell] is the argument of [Number(..).toFixed(6)] and
    [rowKey] the three parts of the key template.  The formatted number
    and the key string themselves are not computed: of the two
    conversions only whether they throw is modelled. *)
Record RowView : Type := mkRowView {
  rowKey : JsValue * JsValue * nat;
  stateCell : JsValue;
  actionCell : JsValue;
  difficultyCell : JsValue;
  enemiesCell : JsValue;
  timeMultCell : JsValue;
  qCell : JsValue
}.

(** Whether [String(v)] and [Number(v)] return.  A parsed object that
    has a [toString] entry of its own hides [Object.prototype.toString]
    behind a value that cannot be called, and the conversion throws; an
    array is converted by joining its converted elements. *)
Fixpoint convertible (v : JsValue) : bool :=
  match v with
  | JObj props => negb (existsb (fun kv => fst kv =? "toString") props)
  | JArr items => forallb convertible items
  | _ => true
  end.

Definition notPrimitive : JsError :=
  mkError "TypeError" "Cannot convert object to primitive value".

(** The callback of [rows.map].  A read of a property of [r] or of
    [r.actionParams] throws on [null] and [undefined]; the key template
    converts [r.state] and [r.action] to strings and the last cell
    converts [r.Q] to a number.  The key is built first here; a JSX
    transform that builds it last changes which error comes first,
    not whether there is one. *)
Definition renderRow (i : nat) (r : JsValue) : JsError + RowView :=
  match getProp r "state", getProp r "action" with
  | inl e, _ => inl e
  | inr _, inl e => inl e
  | inr st, inr act =>
      if convertible st && convertible act then
        match getProp r "actionParams" with
        | inl e => inl e
        | inr params =>
            match getProp params "difficulty", getProp params "enemies",
                  getProp params "timeMult", getProp r "Q" with
            | inr d, inr en, inr tm, inr q =>
                if convertible q then
                  inr {| rowKey := (st, act, i); stateCell := st;
                         actionCell := act; difficultyCell := d;
                         enemiesCell := en; timeMultCell := tm; qCell := q |}
                else inl notPrimitive
            | inl e, _, _, _ => inl e
            | _, inl e, _, _ => inl e
            | _, _, inl e, _ => inl e
            | _, _, _, inl e => inl e
            end
        end
      else inl notPrimitive
  end.

(** [rows.map((r, i) => ...)], from index [i] on: the first row that
    throws ends the render. *)
Fixpoint renderRows (i : nat) (rs : list JsValue) : JsError + list RowView :=
  match rs with
  | [] => inr []
  | r :: rest =>
      match renderRow i r with
      | inl e => inl e
      | inr v =>
          match renderRows (S i) rest with
          | inl e => inl e
          | inr vs => inr (v :: vs)
          end
      end
  end.

(** The element tree the component returns, without its styling. *)
Record View : Type := mkView {
  demoButtons : bool;
  disabled : bool;
  refreshLabel : string;
  banner : option string;
  tableBody : list RowView;
  placeholder : bool;
  apiShown : string;
  userShown : string;
  updatedAt : option N
}.

(** The [return] of [QTablePanel]: the empty string and the number 0 are
    falsy, so an empty error shows no banner and a timestamp of 0 no
    time. *)
Definition render (P : Props) (st : State) : JsError + View :=
  match renderRows 0 (rows st) with
  | inl e => inl e
  | inr body =>
      inr {| demoButtons := showDemoControls P;
             disabled := buttonsDisabled st;
             refreshLabel := if refreshing st then "Refreshing..." else "Refresh";
             banner := if (error st =? "") then None else Some (error st);
             tableBody := body;
             placeholder := match rows st with [] => true | _ => false end;
             apiShown := apiOf P;
             userShown := userOf P;
             updatedAt :=
               match lastUpdated st with
               | Some t => if (t =? 0)%N then None else Some t
               | None => None
               end |}
  end.

(** A row the callback can render: it is not [null], its
    [actionParams] is neither missing nor [null], and its [state],
    [action] and [Q] can be converted. *)
Definition readableRow (r : JsValue) : bool :=
  match getProp r "actionParams" with
  | inr JUndefined => false
  | inr JNull => false
  | inr _ =>
      convertible (field "state" r) && convertible (field "action" r)
      && convertible (field "Q" r)
  | inl _ => false
  end.

(* ================================================================= *)
(** ** Operations that keep the buttons disabled *)

(** [heldBusy p st]: started in state [st] and left alone, [p] finds the
    buttons disabled at every [await] it reaches, whatever it is
    answered. *)
Fixpoint heldBusy (p : Async unit) (st : State) : Prop :=
  match p with
  | Ret _ => True
  | Throw _ => True
  | Do s k => heldBusy k (applySync s st)
  | DateNow k => forall t, heldBusy (k t) st
  | AwaitFetch _ k => buttonsDisabled st = true /\ forall a, heldBusy (k a) st
  | AwaitJson r k => buttonsDisabled st = true /\ heldBusy (k (json r)) st
  end.

(** The events of a session driven by the three buttons alone: clicks,
    and the responses to what they started. *)
Definition buttonEvent (ev : Event) : bool :=
  match ev with
  | ClickRefresh => true
  | ClickDemo _ => true
  | Settled _ _ => true
  | BodyRead _ => true
  | Mounted => false
  | IdentityChanged => false
  | KeyDown _ => false
  end.

(** At most one operation in flight, and the buttons disabled while it
    is. *)
Definition oneAtATime (c : Config) : Prop :=
  inflight c = [] \/
  exists k, inflight c = [k] /\ buttonsDisabled (view c) = true /\
            heldBusy k (view c).

(* ================================================================= *)
(** ** More sample data *)

Definition bob : Props :=
  {| apiOf := "http://127.0.0.1:8000"; userOf := "bob"; showDemoControls := true |}.

(** A world that still shows the error of an earlier failure. *)
Definition stale (msg : string) (rs : list JsValue) : World :=
  {| ui := {| rows := rs; busyDemo := false; refreshing := false; error := msg;
              lastUpdated := Some 7%N |};
     sent := []; effects := []; ticks := 0 |}.

(** A mounted panel with nothing in flight. *)
Definition idle (P : Props) (rs : list JsValue) : Config :=
  {| view := {| rows := rs; busyDemo := false; refreshing := false; error := "";
                lastUpdated := Some 7%N |};
     inflight := []; issued := []; listener := Some P |}.

(* ================================================================= *)
(** ** Running the combinators *)

Lemma run_bind {A B : Type} (E : Env) (p : Async A) (f : A -> Async B) (w : World) :
  run E (bind p f) w =
  match run E p w with
  | (inr a, w') => run E (f a) w'
  | (inl e, w') => (inl e, w')
  end.
Proof.
  revert w.
  induction p as [a|e|s k IH|k IH|rq k IH|r k IH]; intros w; cbn; auto.
Qed.

Lemma run_tryCatch {A : Type} (E : Env) (p : Async A) (h : JsError -> Async A)
    (w : World) :
  run E (tryCatch p h) w =
  match run E p w with
  | (inr a, w') => (inr a, w')
  | (inl e, w') => run E (h e) w'
  end.
Proof.
  revert w.
  induction p as [a|e|s k IH|k IH|rq k IH|r k IH]; intros w; cbn; auto.
Qed.

Lemma run_tryFinally {A : Type} (E : Env) (p : Async A) (f : Async unit)
    (w : World) :
  run E (tryFinally p f) w =
  match run E p w with
  | (res, w') =>
      match run E f w' with
      | (inr _, w'') => (res, w'')
      | (inl e, w'') => (inl e, w'')
      end
  end.
Proof.
  revert w.
  induction p as [a|e|s k IH|k IH|rq k IH|r k IH]; intros w; cbn; auto.
  - rewrite run_bind. destruct (run E f w) as [[e|[]] w']; reflexivity.
  - rewrite run_bind. destruct (run E f w) as [[e'|[]] w']; reflexivity.
Qed.

(** A run only adds to the requests issued. *)
Lemma run_sent_grows {A : Type} (E : Env) (p : Async A) (w : World) :
  exists new, sent (snd (run E p w)) = (new ++ sent w)%list.
Proof.
  revert w.
  induction p as [a|e|s k IH|k IH|rq k IH|r k IH]; intros w; cbn.
  - exists []; reflexivity.
  - exists []; reflexivity.
  - apply (IH (record s w)).
  - apply (IH (clock E (ticks w)) (tick w)).
  - destruct (IH (respond E (List.length (sent w))) (send rq w)) as [new Hnew].
    exists (new ++ [rq])%list. rewrite Hnew. cbn. now rewrite <- app_assoc.
  - apply (IH (json r) w).
Qed.

(* ================================================================= *)
(** ** Error text *)

Lemma errorText_message (e : JsError) :
  message e <> "" -> errorText e = message e.
Proof.
  unfold errorText. destruct (String.eqb_spec (message e) ""); congruence.
Qed.

Lemma ok_range (r : Response) :
  ok r = true <-> (200 <= status r <= 299)%N.
Proof.
  unfold ok. rewrite andb_true_iff, !N.leb_le. tauto.
Qed.

(** The API base: the explicit override when it is set, else the
    environment's value when it is set, else the local default. *)
Lemma resolveAPI_order (apiBase envDefault : option string) :
  (forall v, apiBase = Some v -> v <> "" -> resolveAPI apiBase envDefault = v) /\
  (forall v, truthy apiBase = None -> envDefault = Some v -> v <> "" ->
     resolveAPI apiBase envDefault = v) /\
  (truthy apiBase = None -> truthy envDefault = None ->
     resolveAPI apiBase envDefault = "http://127.0.0.1:8000").
Proof.
  unfold resolveAPI. repeat split.
  - intros v -> Hv. cbn. apply String.eqb_neq in Hv. now rewrite Hv.
  - intros v -> -> Hv. cbn. apply String.eqb_neq in Hv. now rewrite Hv.
  - intros -> ->. reflexivity.
Qed.

(* ================================================================= *)
(** ** refresh *)

Ltac unfold_panel :=
  unfold refresh, refreshTry, demoStep, demoTry, resetEffect, resetTry, surface,
    fetchJSON, awaitFetch, awaitJson, setRows, setBusyDemo, setRefreshing,
    setError, setLastUpdated, consoleError, consoleWarn, perform, now.

Lemma tableOutcome_parsed (r : Response) (j v : JsValue) :
  ok r = true -> json r = inr j -> getProp j "rows" = inr v ->
  tableOutcome (inr r) = inr (arrayOrEmpty v).
Proof. intros Hok Hj Hv. cbn. now rewrite Hok, Hj, Hv. Qed.

Section Refresh.

Variables API userId : string.
Variable E : Env.

(** [refresh] never rejects, whatever the answer. *)
Lemma run_refresh (w : World) :
  run E (refresh API userId) w =
  (inr tt, afterRefresh API userId E (respond E (List.length (sent w))) w).
Proof.
  unfold afterRefresh, tableOutcome. unfold_panel. cbn.
  destruct (respond E (List.length (sent w))) as [e|r]; cbn; [reflexivity|].
  destruct (ok r); cbn; [|reflexivity].
  destruct (json r) as [e|j]; cbn; [reflexivity|].
  destruct (getProp j "rows") as [e|v]; cbn; reflexivity.
Qed.

Lemma afterRefresh_sent (a : Answer) (w : World) :
  sent (afterRefresh API userId E a w) =
  withNoCache (tableCall API userId (clock E (ticks w))) :: sent w.
Proof. unfold afterRefresh. destruct (tableOutcome a); reflexivity. Qed.

Lemma afterRefresh_refreshing (a : Answer) (w : World) :
  refreshing (ui (afterRefresh API userId E a w)) = false.
Proof. unfold afterRefresh. destruct (tableOutcome a); reflexivity. Qed.

Lemma afterRefresh_busyDemo (a : Answer) (w : World) :
  busyDemo (ui (afterRefresh API userId E a w)) = busyDemo (ui w).
Proof. unfold afterRefresh. destruct (tableOutcome a); reflexivity. Qed.

Lemma afterRefresh_rows (a : Answer) (w : World) :
  rows (ui (afterRefresh API userId E a w)) =
  match tableOutcome a with
  | inl _ => rows (ui w)
  | inr rs => rs
  end.
Proof. unfold afterRefresh. destruct (tableOutcome a); reflexivity. Qed.

Lemma afterRefresh_error (a : Answer) (w : World) :
  error (ui (afterRefresh API userId E a w)) =
  match tableOutcome a with
  | inl e => errorText e
  | inr _ => ""
  end.
Proof. unfold afterRefresh. destruct (tableOutcome a); reflexivity. Qed.

Lemma afterRefresh_lastUpdated (a : Answer) (w : World) :
  lastUpdated (ui (afterRefresh API userId E a w)) =
  match tableOutcome a with
  | inl _ => lastUpdated (ui w)
  | inr _ => Some (clock E (S (ticks w)))
  end.
Proof. unfold afterRefresh. destruct (tableOutcome a); reflexivity. Qed.

(** C2.  Whatever makes [refresh] fail (no response at all, a status
    outside 200..299, or a body that [json()] cannot parse), the error
    shown is that failure's message, the rows displayed are the rows
    displayed before, and [refreshing] is false when [refresh] returns.
    [refreshing] is false on return after a success as well, and
    [refresh] itself never rejects.  The same holds of anything else
    thrown inside the [try] block, with [String(e?.message || e)] as the
    error shown; that text is the message whenever the message is not
    empty, which is assumed of the errors the platform raises. *)
Theorem refresh_failure_keeps_rows (w : World) :
  let a := respond E (List.length (sent w)) in
  let w' := snd (run E (refresh API userId) w) in
  fst (run E (refresh API userId) w) = inr tt /\
  refreshing (ui w') = false /\
  (forall e, tableOutcome a = inl e ->
     error (ui w') = errorText e /\ rows (ui w') = rows (ui w)) /\
  (forall e, a = inl e -> message e <> "" ->
     error (ui w') = message e /\ rows (ui w') = rows (ui w)) /\
  (forall r, a = inr r -> ok r = false ->
     error (ui w') = "GET /q/table HTTP " ++ showN (status r) /\
     rows (ui w') = rows (ui w)) /\
  (forall r e, a = inr r -> ok r = true -> json r = inl e -> message e <> "" ->
     error (ui w') = message e /\ rows (ui w') = rows (ui w)).
Proof.
  cbn zeta. rewrite run_refresh. cbn [fst snd].
  split; [reflexivity|]. split; [apply afterRefresh_refreshing|].
  rewrite afterRefresh_error, afterRefresh_rows.
  split; [|split; [|split]].
  - intros e Hout. rewrite Hout. split; reflexivity.
  - intros e Ha Hmsg. rewrite Ha. cbn. split; [now apply errorText_message|reflexivity].
  - intros r Ha Hok. rewrite Ha. cbn. rewrite Hok. split; reflexivity.
  - intros r e Ha Hok Hj Hmsg. rewrite Ha. cbn. rewrite Hok, Hj.
    split; [now apply errorText_message|reflexivity].
Qed.

(** A table body that is not [null] and has no [rows] array gives the
    empty table and no error. *)
Lemma refresh_defaults_to_empty (w : World) (r : Response) (j v : JsValue) :
  respond E (List.length (sent w)) = inr r ->
  ok r = true -> json r = inr j -> getProp j "rows" = inr v ->
  isArray v = false ->
  rows (ui (snd (run E (refresh API userId) w))) = [] /\
  error (ui (snd (run E (refresh API userId) w))) = "".
Proof.
  intros Ha Hok Hj Hv Harr. rewrite run_refresh. cbn [snd].
  rewrite afterRefresh_rows, afterRefresh_error, Ha.
  rewrite (tableOutcome_parsed r Hok Hj Hv).
  destruct v; try discriminate; split; reflexivity.
Qed.

(** A body of [null] (or a missing body value) makes the read of
    [j.rows] throw. *)
Lemma getProp_throws (j : JsValue) (k : string) (e : JsError) :
  getProp j k = inl e -> j = JNull \/ j = JUndefined.
Proof. destruct j; cbn; intros H; try discriminate; auto. Qed.

Lemma run_refreshes (n : nat) (w : World) :
  run E (refreshes API userId n) w = (inr tt, afterRefreshes API userId E n w).
Proof.
  revert w. induction n as [|n IH]; intros w; cbn [refreshes afterRefreshes].
  - reflexivity.
  - rewrite run_bind, run_refresh. apply IH.
Qed.

(** Refreshes that all fail leave the rows where they were. *)
Lemma failing_refreshes_keep_rows (n : nat) (w : World) :
  (forall m, m < n -> tableFails (respond E (List.length (sent w) + m))) ->
  rows (ui (afterRefreshes API userId E n w)) = rows (ui w).
Proof.
  revert w. induction n as [|n IH]; intros w Hfail; cbn [afterRefreshes].
  - reflexivity.
  - rewrite IH.
    + rewrite afterRefresh_rows.
      destruct (Hfail 0) as [e He]; [lia|].
      rewrite Nat.add_0_r in He. now rewrite He.
    + intros m Hm. rewrite afterRefresh_sent. cbn [List.length].
      replace (S (List.length (sent w)) + m) with (List.length (sent w) + S m) by lia.
      apply Hfail. lia.
Qed.

Lemma latest_success_wins (n i : nat) (w : World) (rs : list JsValue) :
  i < n ->
  tableOutcome (respond E (List.length (sent w) + i)) = inr rs ->
  (forall m, i < m < n -> tableFails (respond E (List.length (sent w) + m))) ->
  rows (ui (afterRefreshes API userId E n w)) = rs.
Proof.
  revert i w. induction n as [|n IH]; intros i w Hi Hrs Hfail; [lia|].
  cbn [afterRefreshes].
  set (w1 := afterRefresh API userId E (respond E (List.length (sent w))) w).
  assert (Hlen : List.length (sent w1) = S (List.length (sent w))).
  { unfold w1. now rewrite afterRefresh_sent. }
  destruct i as [|i].
  - rewrite failing_refreshes_keep_rows.
    + unfold w1. rewrite afterRefresh_rows.
      rewrite Nat.add_0_r in Hrs. now rewrite Hrs.
    + intros m Hm. rewrite Hlen.
      replace (S (List.length (sent w)) + m) with (List.length (sent w) + S m) by lia.
      apply Hfail. lia.
  - apply (IH i); [lia| |].
    + rewrite Hlen. rewrite <- Hrs. f_equal. f_equal. lia.
    + intros m Hm. rewrite Hlen.
      replace (S (List.length (sent w)) + m) with (List.length (sent w) + S m) by lia.
      apply Hfail. lia.
Qed.

(** C5.  A refresh that succeeds on a response whose [rows] field is
    the array [rs] displays exactly [rs], whatever was displayed before;
    and after any number of refreshes run one after the other the rows
    displayed are exactly the [rows] array of the latest response that
    succeeded, with nothing of an earlier one. *)
Theorem refresh_replaces_rows_wholesale :
  (forall (w : World) (r : Response) (j : JsValue) (rs : list JsValue),
     respond E (List.length (sent w)) = inr r ->
     ok r = true -> json r = inr j -> getProp j "rows" = inr (JArr rs) ->
     rows (ui (snd (run E (refresh API userId) w))) = rs) /\
  (forall (n i : nat) (w : World) (r : Response) (j : JsValue)
          (rs : list JsValue),
     i < n ->
     respond E (List.length (sent w) + i) = inr r ->
     ok r = true -> json r = inr j -> getProp j "rows" = inr (JArr rs) ->
     (forall m, i < m < n -> tableFails (respond E (List.length (sent w) + m))) ->
     rows (ui (snd (run E (refreshes API userId n) w))) = rs).
Proof.
  split.
  - intros w r j rs Ha Hok Hj Hv.
    rewrite run_refresh. cbn [snd].
    now rewrite afterRefresh_rows, Ha, (tableOutcome_parsed r Hok Hj Hv).
  - intros n i w r j rs Hi Ha Hok Hj Hv Hfail.
    rewrite run_refreshes. cbn [snd].
    apply (latest_success_wins w Hi); [|exact Hfail].
    now rewrite Ha, (tableOutcome_parsed r Hok Hj Hv).
Qed.

End Refresh.

(** [refresh] shows what the table answer holds: the spec's failing
    table (status 500), no response, and a body that does not parse. *)
Lemma refresh_failure_keeps_rows_witness :
  (error (ui (snd (run (script [http500] 1000) (refresh "api" "alice")
                     (populated [sampleRow])))) = "GET /q/table HTTP 500" /\
   rows (ui (snd (run (script [http500] 1000) (refresh "api" "alice")
                    (populated [sampleRow])))) = [sampleRow]) /\
  (error (ui (snd (run (script [offline] 1000) (refresh "api" "alice")
                     (populated [sampleRow])))) = "Failed to fetch" /\
   rows (ui (snd (run (script [offline] 1000) (refresh "api" "alice")
                    (populated [sampleRow])))) = [sampleRow]) /\
  (error (ui (snd (run (script [inr {| status := 200; json := inl (mkError "SyntaxError" "Unexpected end of JSON input") |}] 1000)
                     (refresh "api" "alice") (populated [sampleRow]))))
   = "Unexpected end of JSON input" /\
   rows (ui (snd (run (script [inr {| status := 200; json := inl (mkError "SyntaxError" "Unexpected end of JSON input") |}] 1000)
                    (refresh "api" "alice") (populated [sampleRow]))))
   = [sampleRow]).
Proof.
  split; [|split].
  - destruct (refresh_failure_keeps_rows "api" "alice" (script [http500] 1000)
                (populated [sampleRow])) as (_ & _ & _ & _ & H & _).
    exact (H _ eq_refl eq_refl).
  - destruct (refresh_failure_keeps_rows "api" "alice" (script [offline] 1000)
                (populated [sampleRow])) as (_ & _ & _ & H & _).
    refine (H _ eq_refl _). discriminate.
  - destruct (refresh_failure_keeps_rows "api" "alice"
                (script [inr {| status := 200; json := inl (mkError "SyntaxError" "Unexpected end of JSON input") |}] 1000)
                (populated [sampleRow])) as (_ & _ & _ & _ & _ & H).
    refine (H _ _ eq_refl eq_refl eq_refl _). discriminate.
Defined.

(** The atomic-replace scenario: a refresh answered with one row, one
    answered with two other rows, then one that fails; the two rows of
    the second answer are what is displayed, in their order. *)
Lemma refresh_replaces_rows_wholesale_witness :
  rows (ui (snd (run (script [tableWith [otherRow; sampleRow]] 1000)
                   (refresh "api" "alice") (populated [sampleRow]))))
  = [otherRow; sampleRow] /\
  rows (ui (snd (run (script [tableWith [sampleRow];
                             tableWith [otherRow; sampleRow; otherRow];
                             http500] 1000)
                   (refreshes "api" "alice" 3) freshWorld)))
  = [otherRow; sampleRow; otherRow].
Proof.
  split.
  - destruct (refresh_replaces_rows_wholesale "api" "alice"
                (script [tableWith [otherRow; sampleRow]] 1000)) as [H _].
    exact (H (populated [sampleRow]) _ _ [otherRow; sampleRow]
             eq_refl eq_refl eq_refl eq_refl).
  - destruct (refresh_replaces_rows_wholesale "api" "alice"
                (script [tableWith [sampleRow];
                         tableWith [otherRow; sampleRow; otherRow];
                         http500] 1000)) as [_ H].
    refine (H 3 1 freshWorld _ _ [otherRow; sampleRow; otherRow] _
              eq_refl eq_refl eq_refl eq_refl _).
    + lia.
    + intros m Hm. assert (m = 2) as -> by lia. eexists. reflexivity.
Defined.

(** C6.  A table answer of status 200 whose body is the JSON value
    [null] has no [rows] field, yet [refresh] does not show the empty
    table: reading [j.rows] throws inside the [try] block, the rows
    displayed stay what they were and the [TypeError] is shown as the
    error.  (For every other JSON body without a [rows] array the table
    is emptied: [refresh_defaults_to_empty].) *)
Theorem null_table_body_keeps_rows :
  let E := script [respondJson 200 JNull] 1000 in
  let w' := snd (run E (refresh "api" "alice") (populated [sampleRow])) in
  getProp JNull "rows" = inl (nullRead "null" "rows") /\
  rows (ui w') = [sampleRow] /\
  error (ui w') = "Cannot read properties of null (reading 'rows')" /\
  lastUpdated (ui w') = Some 7%N /\
  refreshing (ui w') = false.
Proof. cbn zeta. rewrite run_refresh. repeat split. Qed.

(* ================================================================= *)
(** ** demoStep *)

Ltac branch :=
  match goal with
  | |- context [respond ?E ?n] => destruct (respond E n) as [?e|?r] eqn:?; cbn
  | |- context [if ok ?r then _ else _] => destruct (ok r) eqn:?; cbn
  | |- context [json ?r] => destruct (json r) as [?e|?j] eqn:?; cbn
  | |- context [getProp ?j ?k] => destruct (getProp j k) as [?e|?v] eqn:?; cbn
  end.

(** Rewrites with what is known of the answers. *)
Ltac use_answers :=
  repeat match goal with
         | H : respond _ _ = _ |- _ => rewrite H
         | H : ok _ = _ |- _ => rewrite H
         | H : json _ = _ |- _ => rewrite H
         | H : getProp _ _ = _ |- _ => rewrite H
         end.

(** Names the requests a run has added in front of [sent w]. *)
Ltac give_new :=
  lazymatch goal with
  | |- exists new, ?a :: ?b :: ?c :: sent ?w = _ /\ _ => exists [a; b; c]
  | |- exists new, ?a :: ?b :: sent ?w = _ /\ _ => exists [a; b]
  | |- exists new, ?a :: sent ?w = _ /\ _ => exists [a]
  end.

Lemma lookup_missing (k : string) (props : list (string * JsValue)) :
  ~ In k (keys props) -> lookup k props = JUndefined.
Proof.
  induction props as [|[k' v] rest IH]; cbn; intros Hk; [reflexivity|].
  destruct (String.eqb_spec k k') as [->|Hne].
  - exfalso; apply Hk; now left.
  - apply IH. intros Hin. apply Hk. now right.
Qed.

Lemma next_state_elsewhere (success : bool) (k : string) :
  k <> "recentSR" -> lookup k (next_state success) = lookup k (demoState success).
Proof.
  intros Hk. apply String.eqb_neq in Hk.
  unfold next_state, demoState. cbn. now rewrite Hk.
Qed.

Section Demo.

Variables API userId : string.
Variable E : Env.

(** [demoStep] never rejects and always releases [busyDemo]. *)
Lemma demoStep_releases (success : bool) (w : World) :
  fst (run E (demoStep API userId success) w) = inr tt /\
  busyDemo (ui (snd (run E (demoStep API userId success) w))) = false.
Proof.
  unfold_panel. cbn. repeat branch; split; reflexivity.
Qed.

(** Once choose has answered 2xx with a body whose [action] can be read,
    the update request goes out next, carrying that action. *)
Lemma demoStep_sends_update (success : bool) (w : World) (r : Response)
    (j action : JsValue) :
  respond E (List.length (sent w)) = inr r ->
  ok r = true -> json r = inr j -> getProp j "action" = inr action ->
  exists later,
    sent (snd (run E (demoStep API userId success) w)) =
    (later ++ withNoCache (updateCall API userId success action)
           :: withNoCache (chooseCall API userId success) :: sent w)%list.
Proof.
  intros Ha Hok Hj Hact. unfold_panel. cbn.
  rewrite Ha. cbn. rewrite Hok. cbn. rewrite Hj. cbn. rewrite Hact. cbn.
  destruct (respond E (S (List.length (sent w)))) as [e|r2]; cbn.
  - exists []. reflexivity.
  - destruct (ok r2); cbn; [|exists []; reflexivity].
    repeat branch;
      exists [withNoCache (tableCall API userId (clock E (ticks w)))];
      reflexivity.
Qed.

(** C4.  When the choose request fails (no response, a status outside
    200..299, or a body that does not parse), the choose request is the
    only request [demoStep] issues — no update, no table fetch — and the
    error is shown; when the update request fails (no response or a
    status outside 200..299), the update request is the last one issued,
    so no table fetch follows, and the error is shown; and [busyDemo] is
    false when [demoStep] returns, wherever it stopped. *)
Theorem demoStep_short_circuit (success : bool) (w : World) :
  let n := List.length (sent w) in
  let w' := snd (run E (demoStep API userId success) w) in
  let choose := withNoCache (chooseCall API userId success) in
  busyDemo (ui w') = false /\
  (forall e, respond E n = inl e ->
     sent w' = choose :: sent w /\ error (ui w') = errorText e) /\
  (forall r, respond E n = inr r -> ok r = false ->
     sent w' = choose :: sent w /\
     error (ui w') = "POST /q/choose HTTP " ++ showN (status r)) /\
  (forall r e, respond E n = inr r -> ok r = true -> json r = inl e ->
     sent w' = choose :: sent w /\ error (ui w') = errorText e) /\
  (forall r j action,
     respond E n = inr r -> ok r = true -> json r = inr j ->
     getProp j "action" = inr action ->
     let update := withNoCache (updateCall API userId success action) in
     (forall e, respond E (S n) = inl e ->
        sent w' = update :: choose :: sent w /\ error (ui w') = errorText e) /\
     (forall r2, respond E (S n) = inr r2 -> ok r2 = false ->
        sent w' = update :: choose :: sent w /\
        error (ui w') = "POST /q/update HTTP " ++ showN (status r2))).
Proof.
  cbn zeta. split; [apply demoStep_releases|].
  unfold_panel. cbn.
  split; [|split; [|split]].
  - intros e Ha. rewrite Ha. cbn. split; reflexivity.
  - intros r Ha Hok. rewrite Ha. cbn. rewrite Hok. cbn. split; reflexivity.
  - intros r e Ha Hok Hj. rewrite Ha. cbn. rewrite Hok. cbn. rewrite Hj. cbn.
    split; reflexivity.
  - intros r j action Ha Hok Hj Hact.
    rewrite Ha. cbn. rewrite Hok. cbn. rewrite Hj. cbn. rewrite Hact. cbn.
    split.
    + intros e Hu. rewrite Hu. cbn. split; reflexivity.
    + intros r2 Hu Hok2. rewrite Hu. cbn. rewrite Hok2. cbn. split; reflexivity.
Qed.

(** C7 (as amended).  Every update request [demoStep] issues is the
    [fetchJSON] call built from the outcome and one action value, and
    once choose has answered with a readable [action] it is issued with
    that action.  In the body sent, state is the composed state, reward
    is 1 for a success and -1 (the opposite of 1) for a failure, done is
    false, and next_state has the keys and values of the composed state
    except [recentSR], which moves from 0.7 up to 0.75 for a success and
    from 0.3 down to 0.25 for a failure.  The body has exactly the keys
    state, action, reward, next_state, done when the action is not
    [undefined]; when it is, [JSON.stringify] leaves the key out and the
    body has the keys state, reward, next_state, done. *)
Theorem demoStep_update_payload (success : bool) (w : World) :
  let w' := snd (run E (demoStep API userId success) w) in
  (exists new,
     sent w' = (new ++ sent w)%list /\
     forall rq, In rq new -> path rq = "/q/update" ->
       exists action, rq = withNoCache (updateCall API userId success action)) /\
  (forall r j action,
     respond E (List.length (sent w)) = inr r -> ok r = true ->
     json r = inr j -> getProp j "action" = inr action ->
     In (withNoCache (updateCall API userId success action)) (sent w')) /\
  (forall action,
     let sentBody := JSON_stringify (updateBody success action) in
     body (withNoCache (updateCall API userId success action)) = Some sentBody /\
     (action <> JUndefined ->
      fieldNames sentBody = ["state"; "action"; "reward"; "next_state"; "done"] /\
      field "action" sentBody = JSON_stringify action) /\
     (action = JUndefined ->
      fieldNames sentBody = ["state"; "reward"; "next_state"; "done"]) /\
     field "state" sentBody = JObj (demoState success) /\
     field "reward" sentBody = JNum (reward success) /\
     field "next_state" sentBody = JObj (next_state success) /\
     field "done" sentBody = JBool false) /\
  (reward true = 1%float /\ PrimFloat.ltb 0 (reward true) = true /\
   reward false = PrimFloat.opp (reward true)) /\
  (keys (next_state success) = keys (demoState success) /\
   (forall k, k <> "recentSR" ->
      lookup k (next_state success) = lookup k (demoState success)) /\
   lookup "recentSR" (demoState success) = JNum (if success then 0.7 else 0.3) /\
   lookup "recentSR" (next_state success) = JNum (if success then 0.75 else 0.25) /\
   PrimFloat.ltb 0.7 0.75 = true /\ PrimFloat.ltb 0.25 0.3 = true).
Proof.
  cbn zeta. split; [|split; [|split; [|split]]].
  - unfold_panel. cbn.
    repeat branch; give_new; (split; [reflexivity|]);
      intros rq Hin Hpath; cbn in Hin;
      repeat (destruct Hin as [<-|Hin]; [try discriminate Hpath|]);
      try contradiction; eexists; reflexivity.
  - intros r j action Ha Hok Hj Hact.
    destruct (@demoStep_sends_update success w r j action Ha Hok Hj Hact) as [later ->].
    apply in_or_app. right. now left.
  - intros action. split; [reflexivity|].
    destruct success; destruct action;
      (split;
       [ intros Hne; first [congruence | split; reflexivity]
       | split; [intros Heq; first [reflexivity | discriminate Heq]
                |repeat split] ]).
  - repeat split.
  - split; [reflexivity|]. split; [apply next_state_elsewhere|].
    destruct success; repeat split.
Qed.

(** A [null] body apart, whatever choose answers with status 2xx counts
    as a success. *)
Lemma getProp_missing (props : list (string * JsValue)) (k : string) :
  ~ In k (keys props) -> getProp (JObj props) k = inr JUndefined.
Proof. intros Hk. cbn. now rewrite lookup_missing. Qed.

(** C10 (as amended).  When choose answers 2xx with a JSON body that is
    not [null] and from which [action] reads as [undefined] (the body has
    no such field), [demoStep] does not abort: the update request is
    issued next, with [undefined] as its action, so that the body sent
    has no action key, and when the update is accepted and the table
    fetch succeeds the step ends with the fetched rows and no error.
    When choose answers 2xx with the body [null], reading its [action]
    throws: the choose request is the only one issued, the [TypeError]
    is the error shown and [busyDemo] is released. *)
Theorem choose_without_action_proceeds (success : bool) (w : World)
    (r : Response) :
  respond E (List.length (sent w)) = inr r -> ok r = true ->
  let n := List.length (sent w) in
  let w' := snd (run E (demoStep API userId success) w) in
  (forall j, json r = inr j -> getProp j "action" = inr JUndefined ->
     (exists later,
        sent w' =
        (later ++ withNoCache (updateCall API userId success JUndefined)
               :: withNoCache (chooseCall API userId success) :: sent w)%list) /\
     option_map fieldNames
       (body (withNoCache (updateCall API userId success JUndefined)))
     = Some ["state"; "reward"; "next_state"; "done"] /\
     (forall r2 rs,
        respond E (S n) = inr r2 -> ok r2 = true ->
        tableOutcome (respond E (S (S n))) = inr rs ->
        error (ui w') = "" /\ rows (ui w') = rs)) /\
  (json r = inr JNull ->
     sent w' = withNoCache (chooseCall API userId success) :: sent w /\
     error (ui w') = "Cannot read properties of null (reading 'action')" /\
     rows (ui w') = rows (ui w) /\
     busyDemo (ui w') = false).
Proof.
  intros Ha Hok. cbn zeta. split.
  - intros j Hj Hact.
    split; [exact (@demoStep_sends_update success w r j JUndefined Ha Hok Hj Hact)|].
    split; [destruct success; reflexivity|].
    intros r2 rs Hu Hok2 Htab.
    unfold demoStep, demoTry, fetchJSON, awaitFetch, awaitJson.
    cbn -[refresh]. rewrite Ha. cbn -[refresh]. rewrite Hok. cbn -[refresh].
    rewrite Hj. cbn -[refresh]. rewrite Hact. cbn -[refresh].
    rewrite Hu. cbn -[refresh]. rewrite Hok2.
    rewrite run_tryFinally, run_tryCatch, run_refresh. cbn -[afterRefresh].
    rewrite afterRefresh_rows, afterRefresh_error, Htab. split; reflexivity.
  - intros Hj. unfold_panel. cbn.
    rewrite Ha. cbn. rewrite Hok. cbn. rewrite Hj. cbn. repeat split.
Qed.

End Demo.

(** Choose rejected by the server: nothing but the choose request goes
    out; update rejected: nothing goes out after it. *)
Lemma demoStep_short_circuit_witness :
  (map path (sent (snd (run (script [http500] 1000) (demoStep "api" "alice" true)
                         (populated [sampleRow])))) = ["/q/choose"] /\
   error (ui (snd (run (script [http500] 1000) (demoStep "api" "alice" true)
                     (populated [sampleRow])))) = "POST /q/choose HTTP 500") /\
  (map path (sent (snd (run (script [offline] 1000) (demoStep "api" "alice" false)
                         (populated [sampleRow])))) = ["/q/choose"] /\
   error (ui (snd (run (script [offline] 1000) (demoStep "api" "alice" false)
                     (populated [sampleRow])))) = "Failed to fetch") /\
  (map path (sent (snd (run (script [chosen (JNum 3); http500] 1000)
                         (demoStep "api" "alice" true) (populated [sampleRow]))))
   = ["/q/update"; "/q/choose"] /\
   error (ui (snd (run (script [chosen (JNum 3); http500] 1000)
                     (demoStep "api" "alice" true) (populated [sampleRow]))))
   = "POST /q/update HTTP 500").
Proof.
  split; [|split].
  - destruct (demoStep_short_circuit "api" "alice" (script [http500] 1000) true
                (populated [sampleRow])) as (_ & _ & H & _).
    destruct (H _ eq_refl eq_refl) as [Hs He].
    split; [now rewrite Hs|exact He].
  - destruct (demoStep_short_circuit "api" "alice" (script [offline] 1000) false
                (populated [sampleRow])) as (_ & H & _).
    destruct (H _ eq_refl) as [Hs He].
    split; [now rewrite Hs|exact He].
  - destruct (demoStep_short_circuit "api" "alice"
                (script [chosen (JNum 3); http500] 1000) true
                (populated [sampleRow])) as (_ & _ & _ & _ & H).
    destruct (H _ _ (JNum 3) eq_refl eq_refl eq_refl eq_refl) as [_ H2].
    destruct (H2 _ eq_refl eq_refl) as [Hs He].
    split; [now rewrite Hs|exact He].
Defined.

(** The end-to-end scenario: choose answers action 3, and the update
    request carries it with reward 1 under all five keys. *)
Lemma demoStep_update_payload_witness :
  In (withNoCache (updateCall "api" "alice" true (JNum 3)))
     (sent (snd (run (script [chosen (JNum 3); accepted; tableWith [sampleRow]] 1000)
                   (demoStep "api" "alice" true) freshWorld))) /\
  fieldNames (JSON_stringify (updateBody true (JNum 3)))
  = ["state"; "action"; "reward"; "next_state"; "done"] /\
  field "action" (JSON_stringify (updateBody true (JNum 3))) = JNum 3 /\
  field "reward" (JSON_stringify (updateBody true (JNum 3))) = JNum 1.
Proof.
  destruct (demoStep_update_payload "api" "alice"
              (script [chosen (JNum 3); accepted; tableWith [sampleRow]] 1000)
              true freshWorld) as (_ & H & Hbody & _).
  split.
  - exact (H _ _ (JNum 3) eq_refl eq_refl eq_refl eq_refl).
  - destruct (Hbody (JNum 3)) as (_ & Hkeys & _ & _ & Hr & _).
    destruct Hkeys as [Hk Ha]; [discriminate|].
    split; [exact Hk|]. split; [exact Ha|exact Hr].
Defined.

(** C7, as stated, fails when choose answers [{}]: the action read is
    [undefined], [JSON.stringify] leaves it out, and the update body
    sent has four keys, not five. *)
Lemma update_body_without_action_key :
  let E := script [respondJson 200 (JObj []); accepted; tableWith []] 1000 in
  let w' := snd (run E (demoStep "api" "alice" true) freshWorld) in
  map path (sent w') = ["/q/table"; "/q/update"; "/q/choose"] /\
  map (fun rq => option_map fieldNames (body rq)) (sent w')
  = [None; Some ["state"; "reward"; "next_state"; "done"]; Some ["state"]].
Proof. cbn zeta. repeat split. Qed.

(** C10, as stated, fails on a choose answer of status 200 whose body is
    the JSON value [null]: it has no [action] field, yet reading
    [choose.action] throws, so the step aborts after the choose request
    (no update is issued) and the [TypeError] is shown. *)
Lemma null_choose_body_aborts :
  let E := script [respondJson 200 JNull; accepted; tableWith [sampleRow]] 1000 in
  let w' := snd (run E (demoStep "api" "alice" true) freshWorld) in
  ok {| status := 200; json := inr JNull |} = true /\
  getProp JNull "action" = inl (nullRead "null" "action") /\
  map path (sent w') = ["/q/choose"] /\
  error (ui w') = "Cannot read properties of null (reading 'action')" /\
  busyDemo (ui w') = false.
Proof. cbn zeta. repeat split. Qed.

(** Choose answers [{}]: the update goes out with an undefined action,
    and the step ends with the fetched row and no error.  Choose answers
    [null]: the step stops after the choose request. *)
Lemma choose_without_action_proceeds_witness :
  ((exists later,
      sent (snd (run (script [respondJson 200 (JObj []); accepted; tableWith [sampleRow]] 1000)
                   (demoStep "api" "alice" true) freshWorld)) =
      (later ++ [withNoCache (updateCall "api" "alice" true JUndefined);
                 withNoCache (chooseCall "api" "alice" true)])%list) /\
   error (ui (snd (run (script [respondJson 200 (JObj []); accepted; tableWith [sampleRow]] 1000)
                     (demoStep "api" "alice" true) freshWorld))) = "" /\
   rows (ui (snd (run (script [respondJson 200 (JObj []); accepted; tableWith [sampleRow]] 1000)
                    (demoStep "api" "alice" true) freshWorld))) = [sampleRow]) /\
  (sent (snd (run (script [respondJson 200 JNull; accepted; tableWith [sampleRow]] 1000)
                (demoStep "api" "alice" false) (populated [otherRow])))
   = [withNoCache (chooseCall "api" "alice" false)] /\
   error (ui (snd (run (script [respondJson 200 JNull; accepted; tableWith [sampleRow]] 1000)
                     (demoStep "api" "alice" false) (populated [otherRow]))))
   = "Cannot read properties of null (reading 'action')").
Proof.
  split.
  - destruct (@choose_without_action_proceeds "api" "alice"
                (script [respondJson 200 (JObj []); accepted; tableWith [sampleRow]] 1000)
                true freshWorld _ eq_refl eq_refl) as [H _].
    destruct (H (JObj []) eq_refl eq_refl) as (Hsent & _ & Hend).
    split; [exact Hsent|].
    exact (Hend _ [sampleRow] eq_refl eq_refl eq_refl).
  - destruct (@choose_without_action_proceeds "api" "alice"
                (script [respondJson 200 JNull; accepted; tableWith [sampleRow]] 1000)
                false (populated [otherRow]) _ eq_refl eq_refl) as [_ H].
    destruct (H eq_refl) as (Hsent & Herr & _).
    split; [exact Hsent|exact Herr].
Defined.

(* ================================================================= *)
(** ** The session reset *)

Section Reset.

Variables API userId : string.
Variable E : Env.

(** A reset request that gets no response: a warning, nothing else. *)
Lemma reset_rejected (w : World) (e : JsError) :
  respond E (List.length (sent w)) = inl e ->
  run E (resetEffect API userId) w =
  (inr tt,
   record (ConsoleWarn "Reset failed (backend offline?)")
     (send (withNoCache (resetCall API userId)) w)).
Proof. intros Ha. unfold_panel. cbn. now rewrite Ha. Qed.

(** A reset request that gets a response, of whatever status: the table
    is cleared and the time recorded. *)
Lemma reset_resolved (w : World) (r : Response) :
  respond E (List.length (sent w)) = inr r ->
  run E (resetEffect API userId) w =
  (inr tt,
   record (SetLastUpdated (clock E (ticks w)))
     (tick (record (SetRows []) (send (withNoCache (resetCall API userId)) w)))).
Proof. intros Ha. unfold_panel. cbn. now rewrite Ha. Qed.

(** C9 (as amended).  [lastUpdated] starts as [null]; a refresh that
    succeeds and a session reset that succeeds (its request is answered
    2xx) each assign it the time at which they finish; a refresh that
    fails and a reset whose request gets no response leave it as it
    was, and [demoStep] changes it only through the refresh that ends a
    completed step. *)
Theorem lastUpdated_set_by_refresh_or_reset (w : World) :
  let n := List.length (sent w) in
  lastUpdated initialState = None /\
  lastUpdated (ui (snd (run E (refresh API userId) w))) =
    match tableOutcome (respond E n) with
    | inr _ => Some (clock E (S (ticks w)))
    | inl _ => lastUpdated (ui w)
    end /\
  (forall r, respond E n = inr r -> ok r = true ->
     lastUpdated (ui (snd (run E (resetEffect API userId) w)))
     = Some (clock E (ticks w))) /\
  (forall e, respond E n = inl e ->
     lastUpdated (ui (snd (run E (resetEffect API userId) w)))
     = lastUpdated (ui w)) /\
  (forall success,
     let w' := snd (run E (demoStep API userId success) w) in
     lastUpdated (ui w') = lastUpdated (ui w) \/
     exists rs action,
       tableOutcome (respond E (S (S n))) = inr rs /\
       sent w' =
         withNoCache (tableCall API userId (clock E (ticks w)))
         :: withNoCache (updateCall API userId success action)
         :: withNoCache (chooseCall API userId success) :: sent w /\
       lastUpdated (ui w') = Some (clock E (S (ticks w)))).
Proof.
  cbn zeta. split; [reflexivity|]. split; [|split; [|split]].
  - rewrite run_refresh. cbn [snd].
    rewrite afterRefresh_lastUpdated.
    destruct (tableOutcome _); reflexivity.
  - intros r Ha _. now rewrite (reset_resolved w Ha).
  - intros e Ha. now rewrite (reset_rejected w Ha).
  - intros success. unfold_panel. cbn.
    repeat branch; try congruence; try (left; reflexivity).
    all: right; do 2 eexists; (split; [|split; reflexivity]).
    all: unfold tableOutcome; use_answers; reflexivity.
Qed.

End Reset.

(** A reset accepted with status 200 records its time; a reset that gets
    no response leaves the earlier time. *)
Lemma lastUpdated_set_by_refresh_or_reset_witness :
  lastUpdated (ui (snd (run (script [accepted] 1000) (resetEffect "api" "alice")
                          freshWorld))) = Some 1000%N /\
  lastUpdated (ui (snd (run (script [offline] 1000) (resetEffect "api" "alice")
                          (populated [sampleRow])))) = Some 7%N.
Proof.
  split.
  - destruct (lastUpdated_set_by_refresh_or_reset "api" "alice"
                (script [accepted] 1000) freshWorld) as (_ & _ & H & _).
    exact (H _ eq_refl eq_refl).
  - destruct (lastUpdated_set_by_refresh_or_reset "api" "alice"
                (script [offline] 1000) (populated [sampleRow])) as (_ & _ & _ & H & _).
    exact (H _ eq_refl).
Defined.

(** C9, as stated, fails on a first mount whose reset is accepted: with
    no refresh run and no table request issued, [lastUpdated] goes from
    [null] to the time of the reset. *)
Lemma reset_sets_lastUpdated :
  let E := script [accepted] 1000 in
  let w' := snd (run E (resetEffect "api" "alice") freshWorld) in
  lastUpdated (ui freshWorld) = None /\
  lastUpdated (ui w') = Some 1000%N /\
  map path (sent w') = ["/reset"] /\
  effects w' = [SetLastUpdated 1000; SetRows []].
Proof. cbn zeta. repeat split. Qed.

(** C3.  A reset answered with status 500 is a failed request by the
    transport's rule (the status is outside 200..299, and [refresh] and
    [demoStep] throw on it), yet the reset effect never reads the
    status: it clears the table and records the time exactly as after a
    success, and logs no warning.  Only a request without any response
    takes the [catch] branch ([reset_rejected]). *)
Theorem reset_clears_table_on_http_500 :
  let E := script [http500] 1000 in
  let w' := snd (run E (resetEffect "api" "alice") (populated [sampleRow])) in
  respond E 0 = http500 /\
  ok {| status := 500; json := inr JNull |} = false /\
  rows (ui (populated [sampleRow])) = [sampleRow] /\
  rows (ui w') = [] /\
  lastUpdated (ui w') = Some 1000%N /\
  effects w' = [SetLastUpdated 1000; SetRows []].
Proof. cbn zeta. repeat split. Qed.

(* ================================================================= *)
(** ** The keyboard shortcut *)

Lemma lowerAscii_r (c : ascii) :
  lowerAscii c = "r"%char <-> c = "r"%char \/ c = "R"%char.
Proof.
  destruct c as [[] [] [] [] [] [] [] []]; vm_compute;
    (split; [intros H; first [discriminate H | now left | now right]
            | intros [H|H]; first [discriminate H | reflexivity]]).
Qed.

Lemma toLowerCase_r (s : string) :
  toLowerCase s = "r" <-> s = "r" \/ s = "R".
Proof.
  destruct s as [|c [|c' s']]; cbn.
  - split; [discriminate|intros [H|H]; discriminate].
  - split.
    + intros H. injection H as H. apply lowerAscii_r in H.
      destruct H as [->| ->]; auto.
    + intros [H|H]; injection H as ->; reflexivity.
  - split; [discriminate|intros [H|H]; discriminate].
Qed.

Lemma onKeyFires_iff (e : KeyboardEvent) :
  onKeyFires e = true <->
  (key e = "r" \/ key e = "R") /\
  ctrlKey e = false /\ metaKey e = false /\ altKey e = false.
Proof.
  unfold onKeyFires.
  rewrite !andb_true_iff, !negb_true_iff, String.eqb_eq, toLowerCase_r.
  tauto.
Qed.

(** C8 (as amended).  The shortcut starts no refresh while Ctrl, Meta or
    Alt is held, in [onKey] and so in the event loop; it fires exactly on
    the key r or R with none of those three held.  Shift is not among
    the keys it checks: the state of Shift never changes what [onKey]
    does. *)
Theorem onKey_modifier_guard (API userId : string) (e : KeyboardEvent) :
  (ctrlKey e = true \/ metaKey e = true \/ altKey e = true ->
   onKey API userId e = None /\
   forall P t c, handle P t (KeyDown e) c = c) /\
  (onKeyFires e = true <->
   (key e = "r" \/ key e = "R") /\
   ctrlKey e = false /\ metaKey e = false /\ altKey e = false) /\
  (forall shift,
     onKey API userId
       {| key := key e; ctrlKey := ctrlKey e; metaKey := metaKey e;
          altKey := altKey e; shiftKey := shift |}
     = onKey API userId e).
Proof.
  split; [|split].
  - intros Hmod.
    assert (Hno : onKeyFires e = false).
    { unfold onKeyFires.
      destruct Hmod as [H|[H|H]]; rewrite H; cbn;
        now rewrite ?andb_false_r. }
    split.
    + unfold onKey. now rewrite Hno.
    + intros P t c. cbn. destruct (listener c); [|reflexivity].
      unfold onKey. now rewrite Hno.
  - apply onKeyFires_iff.
  - intros shift. reflexivity.
Qed.

(** Ctrl+R is left to the browser. *)
Lemma onKey_modifier_guard_witness :
  onKey "api" "alice" ctrlR = None /\
  handle alice 21 (KeyDown ctrlR) (play alice refreshClicked unmounted)
  = play alice refreshClicked unmounted.
Proof.
  destruct (onKey_modifier_guard "api" "alice" ctrlR) as [H _].
  destruct (H (or_introl eq_refl)) as [H1 H2].
  split; [exact H1|apply H2].
Defined.

(** C8, as stated, fails on Shift+R: the key arrives as "R", which
    [toLowerCase] turns into "r", and [shiftKey] is not read, so the
    refresh starts with Shift held. *)
Lemma shift_r_triggers_refresh :
  shiftKey shiftR = true /\
  onKeyFires shiftR = true /\
  onKey "api" "alice" shiftR = Some (refresh "api" "alice") /\
  callsInFlight (handle alice 1 Mounted unmounted) = 2 /\
  callsInFlight (handle alice 2 (KeyDown shiftR) (handle alice 1 Mounted unmounted)) = 3.
Proof. repeat split. Qed.

(* ================================================================= *)
(** ** The busy gate in the event loop *)



(** The three buttons start nothing while either flag is up. *)
Lemma clicks_gated (P : Props) (t : N) (c : Config) :
  busyDemo (view c) = true \/ refreshing (view c) = true ->
  handle P t ClickRefresh c = c /\
  forall success, handle P t (ClickDemo success) c = c.
Proof.
  intros Hbusy.
  assert (Hdis : buttonsDisabled (view c) = true).
  { unfold buttonsDisabled. destruct Hbusy as [-> | ->]; [reflexivity|].
    apply orb_true_r. }
  split.
  - cbn. now rewrite Hdis.
  - intros success. unfold handle. rewrite Hdis. cbn [negb].
    rewrite andb_false_r. reflexivity.
Qed.


(** C1.  The gate holds for the buttons and not for the keyboard
    shortcut.  After a click on Refresh, with that refresh still in
    flight and [refreshing] up, a click on any of the three buttons
    starts nothing, but a plain r runs [refresh] again: a second table
    request goes out and two calls are in flight at once. *)
Theorem keyboard_refresh_bypasses_busy_gate :
  let c := play alice refreshClicked unmounted in
  let c' := handle alice 21 (KeyDown plainR) c in
  refreshing (view c) = true /\
  buttonsDisabled (view c) = true /\
  callsInFlight c = 1 /\
  handle alice 21 ClickRefresh c = c /\
  handle alice 21 (ClickDemo true) c = c /\
  handle alice 21 (ClickDemo false) c = c /\
  callsInFlight c' = 2 /\
  List.length (inflight c') = 2 /\
  map path (issued c') = "/q/table" :: map path (issued c).
Proof. cbn zeta. repeat split. Qed.

(* ================================================================= *)
(** ** What every request carries *)

Lemma run_allRequests {A : Type} (Q : Request -> Prop) (E : Env) (p : Async A)
    (w : World) :
  allRequests Q p ->
  exists new, sent (snd (run E p w)) = (new ++ sent w)%list /\ Forall Q new.
Proof.
  revert w.
  induction p as [a|e|s k IH|k IH|rq k IH|r k IH]; intros w Hall; cbn in *.
  - exists []. split; [reflexivity|constructor].
  - exists []. split; [reflexivity|constructor].
  - apply (IH (record s w) Hall).
  - apply (IH _ (tick w) (Hall _)).
  - destruct Hall as [Hrq Hk].
    destruct (IH _ (send rq w) (Hk (respond E (List.length (sent w)))))
      as (new & Hnew & HQ).
    exists (new ++ [rq])%list. split.
    + rewrite Hnew. cbn. now rewrite <- app_assoc.
    + apply Forall_app. split; [exact HQ|]. now constructor.
  - apply (IH _ w (Hall _)).
Qed.

(** Walks through every branch of an operation. *)
Ltac every_branch :=
  repeat (cbn;
          match goal with
          | |- _ /\ _ => split
          | |- forall _, _ => intro
          | |- True => exact I
          | |- context [settle ?x] => destruct x
          | |- context [if ?b then _ else _] => destruct b
          end).

Section Requests.

Variables API userId : string.
Variable E : Env.

Lemma table_call_defeats_caches (b : N) :
  defeatsCaches (withNoCache (tableCall API userId b)).
Proof. repeat split. now left. Qed.

Lemma reset_call_defeats_caches :
  defeatsCaches (withNoCache (resetCall API userId)).
Proof. repeat split. now left. Qed.

Lemma choose_call_defeats_caches (success : bool) :
  defeatsCaches (withNoCache (chooseCall API userId success)).
Proof. repeat split. now right. Qed.

Lemma update_call_defeats_caches (success : bool) (a : JsValue) :
  defeatsCaches (withNoCache (updateCall API userId success a)).
Proof. repeat split. now right. Qed.

(** X1.  Whatever the answers, every request [refresh], [demoStep] and
    the session reset issue goes out with Cache-Control: no-store,
    Pragma: no-cache and Expires: 0, and the two requests that send a
    body keep their JSON content type. *)
Theorem every_request_defeats_caches (w : World) :
  (exists new,
     sent (snd (run E (refresh API userId) w)) = (new ++ sent w)%list /\
     Forall defeatsCaches new) /\
  (forall success, exists new,
     sent (snd (run E (demoStep API userId success) w)) = (new ++ sent w)%list /\
     Forall defeatsCaches new) /\
  (exists new,
     sent (snd (run E (resetEffect API userId) w)) = (new ++ sent w)%list /\
     Forall defeatsCaches new).
Proof.
  split; [|split; [intros success|]]; apply run_allRequests; unfold_panel;
    every_branch;
    first [ apply table_call_defeats_caches
          | apply reset_call_defeats_caches
          | apply choose_call_defeats_caches
          | apply update_call_defeats_caches ].
Qed.

End Requests.

Lemma showN_inj (a b : N) : showN a = showN b -> a = b.
Proof.
  unfold showN. intros H.
  assert (Hnil : forall n, N.to_uint n <> Decimal.Nil).
  { intros [|p]; [discriminate|apply DecimalPos.Unsigned.to_uint_nonnil]. }
  apply DecimalN.Unsigned.to_uint_inj.
  pose proof (@NilZero.usu _ (Hnil a)) as Ha.
  pose proof (@NilZero.usu _ (Hnil b)) as Hb.
  rewrite H in Ha. rewrite Ha in Hb. now injection Hb.
Qed.

(** X2.  The cache-busting token tells the requests of two refreshes
    apart exactly when the clock has moved between them: two table
    requests for the same user are the same request if and only if they
    were built at the same millisecond. *)
Theorem bust_token_tracks_the_clock (API userId : string) (t1 t2 : N) :
  withNoCache (tableCall API userId t1) = withNoCache (tableCall API userId t2)
  <-> t1 = t2.
Proof.
  split; [|now intros ->].
  intros H. apply (f_equal query) in H. cbn in H.
  injection H as H. now apply showN_inj.
Qed.

Lemma bust_token_tracks_the_clock_witness :
  withNoCache (tableCall "api" "alice" 1700000000000)
  = withNoCache (tableCall "api" "alice" 1700000000000).
Proof.
  exact (proj2 (bust_token_tracks_the_clock "api" "alice"
                  1700000000000 1700000000000) eq_refl).
Defined.

(* ================================================================= *)
(** ** More on refresh *)

Section RefreshMore.

Variables API userId : string.
Variable E : Env.

(** X3.  [refresh] starts by clearing the error, so the error shown
    when it returns owes nothing to what was shown before: it is the
    same from any two states, and empty after a success. *)
Theorem refresh_error_is_fresh (w1 w2 : World) :
  List.length (sent w1) = List.length (sent w2) ->
  error (ui (snd (run E (refresh API userId) w1))) =
  error (ui (snd (run E (refresh API userId) w2))) /\
  (forall rs, tableOutcome (respond E (List.length (sent w1))) = inr rs ->
     error (ui (snd (run E (refresh API userId) w1))) = "").
Proof.
  intros Hlen. rewrite !run_refresh. cbn [snd].
  rewrite !afterRefresh_error, Hlen. split; [reflexivity|].
  intros rs Hrs. now rewrite Hrs.
Qed.

(** X4.  Two refreshes in a row that get the same answer show the same
    rows after the second as after the first, whether that answer is a
    table or a failure. *)
Theorem refresh_twice_same_rows (w : World) :
  respond E (S (List.length (sent w))) = respond E (List.length (sent w)) ->
  rows (ui (snd (run E (refreshes API userId 2) w))) =
  rows (ui (snd (run E (refreshes API userId 1) w))).
Proof.
  intros Hsame. rewrite !run_refreshes. cbn [snd afterRefreshes].
  rewrite (afterRefresh_rows API userId E _ (afterRefresh API userId E _ w)).
  rewrite afterRefresh_sent. cbn [List.length]. rewrite Hsame.
  rewrite afterRefresh_rows.
  destruct (tableOutcome (respond E (List.length (sent w)))); reflexivity.
Qed.

End RefreshMore.

Lemma refresh_error_is_fresh_witness :
  error (ui (snd (run (script [tableWith [otherRow]] 1000) (refresh "api" "alice")
                    (stale "GET /q/table HTTP 500" [sampleRow])))) = "".
Proof.
  destruct (@refresh_error_is_fresh "api" "alice" (script [tableWith [otherRow]] 1000)
              (stale "GET /q/table HTTP 500" [sampleRow]) freshWorld eq_refl)
    as [_ H].
  exact (H [otherRow] eq_refl).
Defined.

Lemma refresh_twice_same_rows_witness :
  rows (ui (snd (run (script [tableWith [sampleRow]; tableWith [sampleRow]] 1000)
                   (refreshes "api" "alice" 2) freshWorld))) =
  rows (ui (snd (run (script [tableWith [sampleRow]; tableWith [sampleRow]] 1000)
                   (refreshes "api" "alice" 1) freshWorld))).
Proof.
  exact (@refresh_twice_same_rows "api" "alice"
           (script [tableWith [sampleRow]; tableWith [sampleRow]] 1000)
           freshWorld eq_refl).
Defined.

(* ================================================================= *)
(** ** More on demoStep *)

Section DemoMore.

Variables API userId : string.
Variable E : Env.

(** X5.  A demo step whose choose is answered 2xx with a readable
    action, whose update is answered 2xx (its body is never read) and
    whose table fetch succeeds issues exactly three requests, in the
    order choose, update, table, and returns with the fetched rows
    displayed, no error, both busy flags down and the time of the
    refresh recorded. *)
Theorem demoStep_completes (success : bool) (w : World) (r r2 : Response)
    (j action : JsValue) (rs : list JsValue) :
  let n := List.length (sent w) in
  respond E n = inr r -> ok r = true -> json r = inr j ->
  getProp j "action" = inr action ->
  respond E (S n) = inr r2 -> ok r2 = true ->
  tableOutcome (respond E (S (S n))) = inr rs ->
  let w' := snd (run E (demoStep API userId success) w) in
  sent w' =
    withNoCache (tableCall API userId (clock E (ticks w)))
    :: withNoCache (updateCall API userId success action)
    :: withNoCache (chooseCall API userId success) :: sent w /\
  rows (ui w') = rs /\ error (ui w') = "" /\
  busyDemo (ui w') = false /\ refreshing (ui w') = false /\
  lastUpdated (ui w') = Some (clock E (S (ticks w))).
Proof.
  cbn zeta. intros Ha Hok Hj Hact Hu Hok2 Htab.
  unfold demoStep, demoTry, fetchJSON, awaitFetch, awaitJson.
  cbn -[refresh]. rewrite Ha. cbn -[refresh]. rewrite Hok. cbn -[refresh].
  rewrite Hj. cbn -[refresh]. rewrite Hact. cbn -[refresh].
  rewrite Hu. cbn -[refresh]. rewrite Hok2.
  rewrite run_tryFinally, run_tryCatch, run_refresh. cbn -[afterRefresh].
  rewrite afterRefresh_sent, afterRefresh_rows, afterRefresh_error,
    afterRefresh_refreshing, afterRefresh_lastUpdated, Htab.
  repeat split.
Qed.

(** X6.  Only the refresh that closes a demo step touches the table: a
    step that stops earlier, or whose closing refresh fails, leaves the
    rows displayed as they were, and [refreshing] keeps its value
    unless the closing refresh ran, which leaves it false. *)
Theorem demoStep_changes_rows_only_by_refresh (success : bool) (w : World) :
  let n := List.length (sent w) in
  let w' := snd (run E (demoStep API userId success) w) in
  (rows (ui w') = rows (ui w) \/
   exists rs, tableOutcome (respond E (S (S n))) = inr rs /\ rows (ui w') = rs /\
              List.length (sent w') = S (S (S n))) /\
  (refreshing (ui w') = refreshing (ui w) \/
   refreshing (ui w') = false /\ List.length (sent w') = S (S (S n))).
Proof.
  cbn zeta. unfold_panel. cbn.
  repeat (first [progress use_answers | branch]; cbn);
    (split;
     [ first [ left; reflexivity
             | right; eexists; repeat split; reflexivity ]
     | first [ left; reflexivity | right; split; reflexivity ] ]).
Qed.

(** X7.  When the closing refresh of a demo step fails, the failure is
    handled once, by [refresh] itself: it is logged once and shown, the
    [catch] of [demoStep] does not run, the rows stay, and the effects of
    the step are, newest first, exactly these eight. *)
Theorem demoStep_closing_refresh_failure (success : bool) (w : World)
    (r r2 : Response) (j action : JsValue) (e : JsError) :
  let n := List.length (sent w) in
  respond E n = inr r -> ok r = true -> json r = inr j ->
  getProp j "action" = inr action ->
  respond E (S n) = inr r2 -> ok r2 = true ->
  tableOutcome (respond E (S (S n))) = inl e ->
  let w' := snd (run E (demoStep API userId success) w) in
  effects w' =
    SetBusyDemo false :: SetRefreshing false :: SetError (errorText e)
    :: ConsoleError e :: SetRefreshing true :: SetError "" :: SetError ""
    :: SetBusyDemo true :: effects w /\
  error (ui w') = errorText e /\ rows (ui w') = rows (ui w) /\
  busyDemo (ui w') = false /\ refreshing (ui w') = false.
Proof.
  cbn zeta. intros Ha Hok Hj Hact Hu Hok2 Htab.
  unfold demoStep, demoTry, fetchJSON, awaitFetch, awaitJson.
  cbn -[refresh]. rewrite Ha. cbn -[refresh]. rewrite Hok. cbn -[refresh].
  rewrite Hj. cbn -[refresh]. rewrite Hact. cbn -[refresh].
  rewrite Hu. cbn -[refresh]. rewrite Hok2.
  rewrite run_tryFinally, run_tryCatch, run_refresh. cbn -[afterRefresh].
  unfold afterRefresh. rewrite Htab. cbn. repeat split.
Qed.

(** X8.  A demo step issues no request when its identity holds a lone
    surrogate, since [encodeURIComponent] throws before the first
    [fetch]; for every other identity it issues one, two or three
    requests and no other combination: POST /q/choose, then POST
    /q/update, then GET /q/table, each only after the one before it. *)
Theorem demoStep_request_order (success : bool) (w : World) :
  exists new,
    sent (snd (run E (forIdentity userId (demoStep API userId success)) w))
    = (new ++ sent w)%list /\
    (loneSurrogate userId = true /\ new = [] \/
     loneSurrogate userId = false /\
     (map requestLine new = [(POST, "/q/choose")] \/
      map requestLine new = [(POST, "/q/update"); (POST, "/q/choose")] \/
      map requestLine new =
        [(GET, "/q/table"); (POST, "/q/update"); (POST, "/q/choose")])).
Proof.
  unfold forIdentity, encodeURIComponent.
  destruct (loneSurrogate userId).
  - exists []. split; [reflexivity|]. left. split; reflexivity.
  - unfold_panel. cbn.
    repeat branch; give_new; (split; [reflexivity|]); right;
      (split; [reflexivity|]); cbn;
      first [ now left | now (right; left) | now (right; right) ].
Qed.

(** X9.  The session reset never rejects and never touches the error or
    the busy flags.  For an identity with a lone surrogate it issues no
    request, leaves the state alone and logs one warning.  For every
    other identity it issues one request, POST /reset; when that gets a
    response, of any status, it empties the table and records the time;
    when it gets none it leaves the state alone and logs one warning. *)
Theorem reset_effect_on_state (w : World) :
  let w' := snd (run E (forIdentity userId (resetEffect API userId)) w) in
  fst (run E (forIdentity userId (resetEffect API userId)) w) = inr tt /\
  error (ui w') = error (ui w) /\
  busyDemo (ui w') = busyDemo (ui w) /\
  refreshing (ui w') = refreshing (ui w) /\
  if loneSurrogate userId then
    sent w' = sent w /\
    rows (ui w') = rows (ui w) /\ lastUpdated (ui w') = lastUpdated (ui w) /\
    effects w' = ConsoleWarn "Reset failed (backend offline?)" :: effects w
  else
    sent w' = withNoCache (resetCall API userId) :: sent w /\
    match respond E (List.length (sent w)) with
    | inr _ =>
        rows (ui w') = [] /\ lastUpdated (ui w') = Some (clock E (ticks w)) /\
        effects w' = SetLastUpdated (clock E (ticks w)) :: SetRows [] :: effects w
    | inl _ =>
        rows (ui w') = rows (ui w) /\ lastUpdated (ui w') = lastUpdated (ui w) /\
        effects w' = ConsoleWarn "Reset failed (backend offline?)" :: effects w
    end.
Proof.
  cbn zeta. unfold forIdentity, encodeURIComponent.
  destruct (loneSurrogate userId); unfold_panel; cbn.
  - repeat split.
  - destruct (respond E (List.length (sent w))) as [e|r]; cbn; repeat split.
Qed.

End DemoMore.

(** The end-to-end scenario: action 3 chosen, update accepted, one row
    fetched. *)
Lemma demoStep_completes_witness :
  map path (sent (snd (run (script [chosen (JNum 3); accepted; tableWith [sampleRow]] 1000)
                         (demoStep "api" "alice" true) freshWorld)))
  = ["/q/table"; "/q/update"; "/q/choose"] /\
  rows (ui (snd (run (script [chosen (JNum 3); accepted; tableWith [sampleRow]] 1000)
                   (demoStep "api" "alice" true) freshWorld))) = [sampleRow] /\
  error (ui (snd (run (script [chosen (JNum 3); accepted; tableWith [sampleRow]] 1000)
                    (demoStep "api" "alice" true) freshWorld))) = "".
Proof.
  destruct (@demoStep_completes "api" "alice"
              (script [chosen (JNum 3); accepted; tableWith [sampleRow]] 1000)
              true freshWorld _ _ _ (JNum 3) [sampleRow]
              eq_refl eq_refl eq_refl eq_refl eq_refl eq_refl eq_refl)
    as (Hs & Hr & He & _).
  split; [now rewrite Hs|]. split; [exact Hr|exact He].
Defined.

Lemma demoStep_closing_refresh_failure_witness :
  error (ui (snd (run (script [chosen (JNum 3); accepted; http500] 1000)
                    (demoStep "api" "alice" false) (populated [sampleRow]))))
  = "GET /q/table HTTP 500" /\
  rows (ui (snd (run (script [chosen (JNum 3); accepted; http500] 1000)
                   (demoStep "api" "alice" false) (populated [sampleRow]))))
  = [sampleRow].
Proof.
  destruct (@demoStep_closing_refresh_failure "api" "alice"
              (script [chosen (JNum 3); accepted; http500] 1000)
              false (populated [sampleRow]) _ _ _ (JNum 3) _
              eq_refl eq_refl eq_refl eq_refl eq_refl eq_refl eq_refl)
    as (_ & He & Hr & _).
  split; [exact He|exact Hr].
Defined.

(* ================================================================= *)
(** ** More on the event loop *)

Lemma filter_snoc_length {A : Type} (f : A -> bool) (l : list A) (x : A) :
  List.length (filter f (l ++ [x])) =
  List.length (filter f l) + (if f x then 1 else 0).
Proof.
  rewrite filter_app, length_app. cbn. now destruct (f x).
Qed.



(** X10.  On mount and on every change to an identity that
    [encodeURIComponent] accepts, the reset request and the table
    request both go out at once, the reset first, neither waiting for
    the other and neither held back by a busy flag: whatever the state,
    two more calls are in flight, [refreshing] is up and the error is
    cleared, while the rows stay as they were.  Only the mount registers
    the key listener. *)
Theorem identity_change_starts_reset_and_fetch (P : Props) (t : N) (c : Config) :
  encodable (userOf P) ->
  let starts (c' : Config) :=
    issued c' =
      withNoCache (tableCall (apiOf P) (userOf P) t)
      :: withNoCache (resetCall (apiOf P) (userOf P)) :: issued c /\
    callsInFlight c' = S (S (callsInFlight c)) /\
    refreshing (view c') = true /\ error (view c') = "" /\
    rows (view c') = rows (view c) /\
    busyDemo (view c') = busyDemo (view c) in
  starts (handle P t Mounted c) /\
  listener (handle P t Mounted c) = Some P /\
  starts (handle P t IdentityChanged c) /\
  listener (handle P t IdentityChanged c) = listener c.
Proof.
  intros _. cbn zeta. unfold callsInFlight. unfold_panel. cbn.
  rewrite !filter_snoc_length. cbn.
  repeat split; lia.
Qed.

(** The identity changes to bob while a demo step holds [busyDemo]. *)
Lemma identity_change_starts_reset_and_fetch_witness :
  map path (issued (handle bob 9 IdentityChanged
                      (handle alice 5 (ClickDemo true) (idle alice [sampleRow]))))
  = ["/q/table"; "/reset"; "/q/choose"] /\
  callsInFlight (handle bob 9 IdentityChanged
                   (handle alice 5 (ClickDemo true) (idle alice [sampleRow]))) = 3.
Proof.
  destruct (@identity_change_starts_reset_and_fetch bob 9
              (handle alice 5 (ClickDemo true) (idle alice [sampleRow])) eq_refl)
    as (_ & _ & (Hissued & Hcalls & _) & _).
  split; [now rewrite Hissued|exact Hcalls].
Defined.

(** X11.  The reset and the initial fetch started by a change of
    identity are not ordered: whichever response arrives last decides
    what is displayed.  If the table arrives first and the reset's
    response after it, the rows just fetched are wiped; if the reset's
    response arrives first, the fetched rows stay. *)
Theorem last_response_to_arrive_wins (P : Props) (t0 t1 t2 t3 : N) (c : Config)
    (r r0 : Response) (j v : JsValue) :
  inflight c = [] -> ok r = true -> json r = inr j -> getProp j "rows" = inr v ->
  let c1 := handle P t0 IdentityChanged c in
  let tableFirst :=
    play P [(t1, Settled 1 (inr r)); (t2, BodyRead 1); (t3, Settled 0 (inr r0))] c1 in
  let resetFirst :=
    play P [(t1, Settled 0 (inr r0)); (t2, Settled 0 (inr r)); (t3, BodyRead 0)] c1 in
  (rows (view tableFirst) = [] /\ lastUpdated (view tableFirst) = Some t3 /\
   List.length (inflight tableFirst) = 0) /\
  (rows (view resetFirst) = arrayOrEmpty v /\
   lastUpdated (view resetFirst) = Some t3 /\
   List.length (inflight resetFirst) = 0).
Proof.
  intros Hidle Hok Hj Hv. cbn zeta.
  destruct c as [st fl iss lis]. cbn in Hidle. subst fl.
  unfold_panel. split.
  - cbn. rewrite Hok. cbn. rewrite Hj. cbn. rewrite Hv. cbn. repeat split.
  - cbn. rewrite Hok. cbn. rewrite Hj. cbn. rewrite Hv. cbn. repeat split.
Qed.



Lemma last_response_to_arrive_wins_witness :
  rows (view (play alice
                [(2, Settled 1 (tableWith [sampleRow])); (3, BodyRead 1);
                 (4, Settled 0 accepted)]%N
                (handle alice 1 IdentityChanged (idle alice [])))) = [] /\
  rows (view (play alice
                [(2, Settled 0 accepted); (3, Settled 0 (tableWith [sampleRow]));
                 (4, BodyRead 0)]%N
                (handle alice 1 IdentityChanged (idle alice [])))) = [sampleRow].
Proof.
  destruct (@last_response_to_arrive_wins alice 1 2 3 4 (idle alice [])
              {| status := 200; json := inr (JObj [("rows", JArr [sampleRow])]) |}
              {| status := 200; json := inr (JObj [("ok", JBool true)]) |}
              _ (JArr [sampleRow]) eq_refl eq_refl eq_refl eq_refl)
    as [[H1 _] [H2 _]].
  split; [exact H1|exact H2].
Defined.



(* ================================================================= *)
(** ** The gate of the buttons *)

Lemma heldBusy_refresh (API userId : string) (st : State) :
  heldBusy (refresh API userId) st.
Proof.
  unfold_panel. cbn. intros t. split.
  - unfold buttonsDisabled. cbn. apply orb_true_r.
  - intros [e|r]; cbn; [exact I|].
    destruct (ok r); cbn; [|exact I].
    split; [unfold buttonsDisabled; cbn; apply orb_true_r|].
    destruct (json r) as [e|j]; cbn; [exact I|].
    destruct (getProp j "rows"); cbn; [exact I|].
    intros _. exact I.
Qed.

Lemma heldBusy_demoStep (API userId : string) (success : bool) (st : State) :
  heldBusy (demoStep API userId success) st.
Proof.
  unfold_panel. cbn. split; [reflexivity|].
  intros [e|r]; cbn; [exact I|].
  destruct (ok r); cbn; [|exact I].
  split; [reflexivity|].
  destruct (json r) as [e|j]; cbn; [exact I|].
  destruct (getProp j "action"); cbn; [exact I|].
  split; [reflexivity|].
  intros [e|r2]; cbn; [exact I|].
  destruct (ok r2); cbn; [|exact I].
  intros t. split; [reflexivity|].
  intros [e|r3]; cbn; [exact I|].
  destruct (ok r3); cbn; [|exact I].
  split; [reflexivity|].
  destruct (json r3) as [e|j3]; cbn; [exact I|].
  destruct (getProp j3 "rows"); cbn; [exact I|].
  intros _. exact I.
Qed.

(** An operation that holds the buttons, started with nothing in flight,
    leaves at most itself in flight. *)
Lemma advance_oneAtATime (t : N) (p : Async unit) (c : Config) :
  inflight c = [] -> heldBusy p (view c) -> oneAtATime (advance t p c).
Proof.
  revert c. induction p as [a|e|s k IH|k IH|rq k IH|r k IH];
    intros c Hidle Hheld; cbn in *.
  - now left.
  - now left.
  - apply IH; [exact Hidle|exact Hheld].
  - apply IH; [exact Hidle|apply Hheld].
  - right. exists (AwaitFetch rq k). rewrite Hidle. cbn.
    split; [reflexivity|]. split; [apply Hheld|exact Hheld].
  - right. exists (AwaitJson r k). rewrite Hidle. cbn.
    split; [reflexivity|]. split; [apply Hheld|exact Hheld].
Qed.

Lemma handle_oneAtATime (P : Props) (t : N) (ev : Event) (c : Config) :
  buttonEvent ev = true -> oneAtATime c -> oneAtATime (handle P t ev c).
Proof.
  intros Hev Hinv. destruct ev; try discriminate Hev; unfold handle.
  - destruct (buttonsDisabled (view c)) eqn:Hdis; [exact Hinv|].
    destruct Hinv as [Hidle|(k & _ & Hbusy & _)]; [|congruence].
    apply advance_oneAtATime; [exact Hidle|apply heldBusy_refresh].
  - destruct (buttonsDisabled (view c)) eqn:Hdis.
    + rewrite andb_false_r. exact Hinv.
    + destruct (showDemoControls P); cbn [andb negb]; [|exact Hinv].
      destruct Hinv as [Hidle|(k & _ & Hbusy & _)]; [|congruence].
      apply advance_oneAtATime; [exact Hidle|apply heldBusy_demoStep].
  - destruct Hinv as [Hidle|(k & Hone & Hbusy & Hheld)].
    + rewrite Hidle. destruct i; cbn; now left.
    + assert (Hsame : oneAtATime c) by (right; exists k; auto).
      rewrite Hone. destruct i as [|i]; cbn.
      * destruct k as [a0|e|s k|k|rq k|r k]; try exact Hsame.
        apply advance_oneAtATime; cbn; [now rewrite Hone|apply Hheld].
      * destruct i; exact Hsame.
  - destruct Hinv as [Hidle|(k & Hone & Hbusy & Hheld)].
    + rewrite Hidle. destruct i; cbn; now left.
    + assert (Hsame : oneAtATime c) by (right; exists k; auto).
      rewrite Hone. destruct i as [|i]; cbn.
      * destruct k as [a0|e|s k|k|rq k|r k]; try exact Hsame.
        apply advance_oneAtATime; cbn; [now rewrite Hone|apply Hheld].
      * destruct i; exact Hsame.
Qed.

(** X14.  With the three buttons as the only triggers the gate holds:
    from a panel with nothing in flight, whatever is clicked and however
    the requests are answered, at most one operation is ever in flight,
    and the buttons are disabled for as long as one is. *)
Theorem buttons_alone_never_overlap (P : Props) (evs : list (N * Event))
    (c : Config) :
  inflight c = [] ->
  Forall (fun te => buttonEvent (snd te) = true) evs ->
  List.length (inflight (play P evs c)) <= 1 /\
  callsInFlight (play P evs c) <= 1 /\
  (List.length (inflight (play P evs c)) = 1 ->
   buttonsDisabled (view (play P evs c)) = true).
Proof.
  intros Hidle Hevs.
  assert (Hinv : oneAtATime (play P evs c)).
  { assert (H0 : oneAtATime c) by now left.
    clear Hidle. revert c H0.
    induction Hevs as [|[t ev] evs Hev _ IH]; intros c H0; cbn.
    - exact H0.
    - apply IH. now apply handle_oneAtATime. }
  unfold callsInFlight.
  destruct Hinv as [-> |(k & -> & Hbusy & _)]; cbn.
  - repeat split; [lia|lia|discriminate].
  - repeat split; [lia|destruct (awaitsFetch k); cbn; lia|intros _; exact Hbusy].
Qed.

(** Refresh clicked, then every button clicked while it is in flight,
    then its failure, then a demo step clicked twice. *)
Lemma buttons_alone_never_overlap_witness :
  List.length
    (inflight
       (play alice
          [(1, ClickRefresh); (2, ClickRefresh); (3, ClickDemo true);
           (4, Settled 0 http500); (5, ClickDemo false); (6, ClickDemo true)]%N
          (idle alice [sampleRow]))) <= 1.
Proof.
  refine (proj1 (@buttons_alone_never_overlap alice
            [(1, ClickRefresh); (2, ClickRefresh); (3, ClickDemo true);
             (4, Settled 0 http500); (5, ClickDemo false); (6, ClickDemo true)]%N
            (idle alice [sampleRow]) eq_refl _)).
  repeat constructor.
Defined.

(* ================================================================= *)
(** ** What is displayed *)

Lemma renderRow_readable (i : nat) (r : JsValue) :
  readableRow r = true ->
  renderRow i r =
  inr {| rowKey := (field "state" r, field "action" r, i);
         stateCell := field "state" r;
         actionCell := field "action" r;
         difficultyCell := field "difficulty" (field "actionParams" r);
         enemiesCell := field "enemies" (field "actionParams" r);
         timeMultCell := field "timeMult" (field "actionParams" r);
         qCell := field "Q" r |}.
Proof.
  unfold readableRow, renderRow.
  destruct r as [ | |b|x|s|items|props]; cbn; try discriminate.
  destruct (lookup "actionParams" props); cbn; try discriminate;
    intros H; apply andb_true_iff in H as [H Hq];
    rewrite H, Hq; reflexivity.
Qed.

Lemma renderRow_unreadable (i : nat) (r : JsValue) :
  readableRow r = false -> exists e, renderRow i r = inl e.
Proof.
  unfold readableRow, renderRow.
  destruct r as [ | |b|x|s|items|props]; cbn; try (eexists; reflexivity).
  destruct (convertible (lookup "state" props) && convertible (lookup "action" props));
    cbn; [|intros _; eexists; reflexivity].
  destruct (lookup "actionParams" props); cbn;
    try (intros _; eexists; reflexivity);
    intros ->; eexists; reflexivity.
Qed.

Lemma renderRows_readable (i : nat) (rs : list JsValue) :
  forallb readableRow rs = true ->
  exists body,
    renderRows i rs = inr body /\
    map stateCell body = map (field "state") rs /\
    map actionCell body = map (field "action") rs /\
    map qCell body = map (field "Q") rs /\
    map (fun v => snd (rowKey v)) body = seq i (List.length rs).
Proof.
  revert i. induction rs as [|r rs IH]; intros i Hall; cbn.
  - exists []. repeat split.
  - cbn in Hall. apply andb_true_iff in Hall as [Hr Hrs].
    rewrite (renderRow_readable i r Hr).
    destruct (IH (S i) Hrs) as (body & -> & Hst & Hact & Hq & Hidx).
    eexists. split; [reflexivity|]. cbn.
    now rewrite Hst, Hact, Hq, Hidx.
Qed.

Lemma renderRows_unreadable (i : nat) (rs : list JsValue) :
  forallb readableRow rs = false -> exists e, renderRows i rs = inl e.
Proof.
  revert i. induction rs as [|r rs IH]; intros i Hsome; cbn in *.
  - discriminate.
  - destruct (readableRow r) eqn:Hr; cbn in Hsome.
    + rewrite (renderRow_readable i r Hr).
      destruct (IH (S i) Hsome) as [e ->]. now exists e.
    + destruct (renderRow_unreadable i r Hr) as [e ->]. now exists e.
Qed.

(** X15.  The component returns its element tree exactly when every row
    displayed can be rendered: no row is [null], every row has an
    [actionParams] that is neither missing nor [null], and its state,
    action and Q convert to a string or a number.  With any other row
    among them, building the table throws and nothing is returned. *)
Theorem render_succeeds_iff_rows_readable (P : Props) (st : State) :
  ((exists v, render P st = inr v) <-> forallb readableRow (rows st) = true) /\
  ((exists e, render P st = inl e) <-> forallb readableRow (rows st) = false).
Proof.
  unfold render.
  destruct (forallb readableRow (rows st)) eqn:Hall.
  - destruct (renderRows_readable 0 (rows st) Hall) as (body & -> & _).
    split; split.
    + reflexivity.
    + intros _. eexists. reflexivity.
    + intros [e He]. discriminate He.
    + discriminate.
  - destruct (renderRows_unreadable 0 (rows st) Hall) as [e ->].
    split; split.
    + intros [v Hv]. discriminate Hv.
    + discriminate.
    + reflexivity.
    + intros _. now exists e.
Qed.

(** X16.  [refresh] does not look inside the rows it is sent: a 2xx
    answer whose [rows] array holds a row that cannot be rendered is a
    success, its rows are stored without an error, and the next render
    throws. *)
Theorem refresh_displays_rows_it_cannot_render (API userId : string) (E : Env)
    (P : Props) (w : World) (r : Response) (j : JsValue) (items : list JsValue) :
  respond E (List.length (sent w)) = inr r ->
  ok r = true -> json r = inr j -> getProp j "rows" = inr (JArr items) ->
  forallb readableRow items = false ->
  let st := ui (snd (run E (refresh API userId) w)) in
  rows st = items /\ error st = "" /\ exists e, render P st = inl e.
Proof.
  intros Ha Hok Hj Hrows Hbad. cbn zeta.
  rewrite run_refresh. cbn [snd].
  assert (Hshown : rows (ui (afterRefresh API userId E (respond E (List.length (sent w))) w))
                   = items).
  { now rewrite afterRefresh_rows, Ha, (tableOutcome_parsed r Hok Hj Hrows). }
  split; [exact Hshown|]. split.
  - now rewrite afterRefresh_error, Ha, (tableOutcome_parsed r Hok Hj Hrows).
  - unfold render. rewrite Hshown.
    destruct (renderRows_unreadable 0 items Hbad) as [e ->]. now exists e.
Qed.

Lemma render_succeeds_iff_rows_readable_witness :
  (exists v, render alice (ui (populated [sampleRow; otherRow])) = inr v) /\
  (exists e, render alice (ui (populated [sampleRow; JObj []])) = inl e).
Proof.
  split.
  - exact (proj2 (proj1 (render_succeeds_iff_rows_readable alice
                           (ui (populated [sampleRow; otherRow])))) eq_refl).
  - exact (proj2 (proj2 (render_succeeds_iff_rows_readable alice
                           (ui (populated [sampleRow; JObj []])))) eq_refl).
Defined.

(** A table answer whose only row is [{}]. *)
Lemma refresh_displays_rows_it_cannot_render_witness :
  rows (ui (snd (run (script [tableWith [JObj []]] 1000) (refresh "api" "alice")
                   freshWorld))) = [JObj []] /\
  error (ui (snd (run (script [tableWith [JObj []]] 1000) (refresh "api" "alice")
                    freshWorld))) = "" /\
  exists e, render alice (ui (snd (run (script [tableWith [JObj []]] 1000)
                                     (refresh "api" "alice") freshWorld))) = inl e.
Proof.
  exact (@refresh_displays_rows_it_cannot_render "api" "alice"
           (script [tableWith [JObj []]] 1000) alice freshWorld
           _ _ [JObj []] eq_refl eq_refl eq_refl eq_refl eq_refl).
Defined.

(** An empty override counts as absent. *)
Lemma resolveAPI_order_witness :
  resolveAPI (Some "https://q.example") (Some "http://env") = "https://q.example" /\
  resolveAPI (Some "") (Some "http://env") = "http://env" /\
  resolveAPI None (Some "") = "http://127.0.0.1:8000".
Proof.
  split; [|split].
  - refine (proj1 (resolveAPI_order (Some "https://q.example") (Some "http://env"))
              _ eq_refl _). discriminate.
  - refine (proj1 (proj2 (resolveAPI_order (Some "") (Some "http://env")))
              _ eq_refl eq_refl _). discriminate.
  - exact (proj2 (proj2 (resolveAPI_order None (Some ""))) eq_refl eq_refl).
Defined.
